(** * cleanmycsv: the cleaning and quality-assessment engine

    A shallow embedding of [app/cleaner.py] (class [CSVCleaner]) and
    the properties its specification states about it.

    Modelling conventions.
    - A Python [str] is a sequence of Unicode code points ([pystr]).  What
      Python decides on ASCII is written out; what it decides on other code
      points comes from the Unicode tables of the interpreter, which enter
      as parameters ([unicode_nd], [unicode_space], [unicode_lower]).
    - A pandas [DataFrame] is kept row-major: the column labels with their
      dtypes, and the rows.  Labels are unique and rows rectangular
      ([wf_frame]), as for every frame [read_csv] builds.
    - Comparisons against a float product or quotient ([len(df) * 0.7],
      [nulls / len(df) * 100]) decide control flow, so they are evaluated
      in IEEE binary64 ([SpecFloat]): rounding and NaN are as in the
      interpreter.
    - The quality score is a chain of float operations; it is computed in
      binary64 as well, operation by operation, and rounded as numpy
      rounds.
    - Code that the engine executes without knowing it (the snippet passed
      to [exec]) may raise an exception outside class [Exception], or not
      terminate: such a call escapes ([completion]).  The calls of the
      libraries raise exceptions of class [Exception] ([outcome]). *)

From Stdlib Require Import String Ascii.
From Stdlib Require Import List Bool Arith ZArith NArith Lia.
From Stdlib Require Import QArith Qcanon Qround Qabs Qpower Lqa.
From Stdlib Require Import SpecFloat.
Import ListNotations.

Set Implicit Arguments.

(** ** Python strings *)

Module PyStr.

Definition codepoint := N.
Definition pystr := list codepoint.

(** An ASCII literal of the source, as code points. *)
Fixpoint lit (s : string) : pystr :=
  match s with
  | EmptyString => []
  | String a r => N_of_ascii a :: lit r
  end.

Definition pystr_eq_dec : forall a b : pystr, {a = b} + {a <> b} :=
  list_eq_dec N.eq_dec.

Definition is_ascii (c : codepoint) : bool := (c <? 128)%N.

Definition ascii_digit (c : codepoint) : bool :=
  ((48 <=? c) && (c <=? 57))%N.

(** [str.isspace] on ASCII: TAB..CR, FS..US and the space. *)
Definition ascii_space (c : codepoint) : bool :=
  (((9 <=? c) && (c <=? 13)) || ((28 <=? c) && (c <=? 32)))%N.

Definition ascii_lower (c : codepoint) : codepoint :=
  if ((65 <=? c) && (c <=? 90))%N then (c + 32)%N else c.

(** [prefix p s]: [s.startswith(p)]. *)
Fixpoint prefix (p s : pystr) : bool :=
  match p, s with
  | [], _ => true
  | _ :: _, [] => false
  | a :: p', b :: s' => (a =? b)%N && prefix p' s'
  end.

(** [contains p s]: the Python test [p in s]. *)
Fixpoint contains (p s : pystr) : bool :=
  prefix p s ||
  match s with
  | [] => false
  | _ :: s' => contains p s'
  end.

Section Unicode.
(** The tables of the interpreter beyond ASCII: decimal digits (category
    Nd), white space, and lower-casing of a string that is not all
    ASCII. *)
Variable unicode_nd : codepoint -> bool.
Variable unicode_space : codepoint -> bool.
Variable unicode_lower : pystr -> pystr.

(** The regular expression class [\d] on a [str] pattern. *)
Definition is_digit (c : codepoint) : bool :=
  ascii_digit c || (negb (is_ascii c) && unicode_nd c).

Definition is_space (c : codepoint) : bool :=
  ascii_space c || (negb (is_ascii c) && unicode_space c).

(** [str.lower()]. *)
Definition lower (s : pystr) : pystr :=
  if forallb is_ascii s then map ascii_lower s else unicode_lower s.

Fixpoint lstrip (s : pystr) : pystr :=
  match s with
  | c :: r => if is_space c then lstrip r else s
  | [] => []
  end.

Definition rstrip (s : pystr) : pystr := rev (lstrip (rev s)).

(** [str.strip()]. *)
Definition strip (s : pystr) : pystr := rstrip (lstrip s).

(** [re.sub(r'\D', '', s)]. *)
Definition digits_only (s : pystr) : pystr := filter is_digit s.
End Unicode.

End PyStr.
Import PyStr.

(** ** IEEE binary64, for the float arithmetic of the source *)

Module F64.

Definition prec : Z := 53.
Definition emax : Z := 1024.

Definition float := spec_float.

(** [float(n)] for a Python or numpy integer: rounded to nearest even. *)
Definition of_Z (n : Z) : float := binary_normalize prec emax n 0 false.
Definition of_nat (n : nat) : float := of_Z (Z.of_nat n).

Definition add : float -> float -> float := SFadd prec emax.
Definition sub : float -> float -> float := SFsub prec emax.
Definition mul : float -> float -> float := SFmul prec emax.
Definition div : float -> float -> float := SFdiv prec emax.
Definition ltb : float -> float -> bool := SFltb.

(** [a > b]. *)
Definition gtb (a b : float) : bool := ltb b a.

(** The literals [0.7] and [0.8]: the binary64 numbers nearest to 7/10 and
    8/10. *)
Definition lit_0_7 : float := S754_finite false 6305039478318694 (-53).
Definition lit_0_8 : float := S754_finite false 7205759403792794 (-53).

(** The weights [0.4], [0.3], [0.2] and [0.1] of the quality score, each
    the binary64 number nearest to its decimal, and the exact [0.5]. *)
Definition lit_0_4 : float := S754_finite false 7205759403792794 (-54).
Definition lit_0_3 : float := S754_finite false 5404319552844595 (-54).
Definition lit_0_2 : float := S754_finite false 7205759403792794 (-55).
Definition lit_0_1 : float := S754_finite false 7205759403792794 (-56).
Definition lit_0_5 : float := S754_finite false 4503599627370496 (-53).

(** The rational a finite float denotes (0 for the others). *)
Definition to_Q (f : float) : Q :=
  match f with
  | S754_finite s m e =>
      let v := (inject_Z (Zpos m) * Qpower 2 e)%Q in
      if s then Qopp v else v
  | _ => 0%Q
  end.

(** [a < b] as the order of the numbers two floats denote; false when one
    of them is nan.  [ltb] decides the same order on the floats an
    operation returns, from their exponents and mantissas. *)
Definition lt (a b : float) : bool :=
  match a, b with
  | S754_nan, _ | _, S754_nan => false
  | S754_infinity sa, S754_infinity sb => sa && negb sb
  | S754_infinity sa, _ => sa
  | _, S754_infinity sb => negb sb
  | _, _ =>
      match Qcompare (to_Q a) (to_Q b) with Lt => true | _ => false end
  end.

(** The integer nearest to a rational, ties to the even one. *)
Definition round_half_even (x : Q) : Z :=
  let f := Qfloor x in
  match Qcompare (x - inject_Z f) (1 # 2) with
  | Lt => f
  | Gt => (f + 1)%Z
  | Eq => if Z.even f then f else (f + 1)%Z
  end.

(** [numpy.rint]: the nearest integer, ties to even, as a float. *)
Definition rint (x : float) : float :=
  match x with
  | S754_finite s _ _ =>
      let k := round_half_even (to_Q x) in
      if (k =? 0)%Z then S754_zero s else of_Z k
  | _ => x
  end.

(** [round(x, 1)] for a [numpy.float64]: numpy multiplies by 10.0, rounds
    to an integer and divides by 10.0. *)
Definition round1 (x : float) : float :=
  div (rint (mul x (of_Z 10))) (of_Z 10).

(** [count > n * c], the shape of every threshold test of the source:
    [count] and [n] are integers, [c] a float literal. *)
Definition count_exceeds (count n : nat) (c : float) : bool :=
  gtb (of_nat count) (mul (of_nat n) c).

End F64.

(** ** Tables *)

Module Frame.

(** A float that is not NaN.  Cell values are only compared, printed and
    counted by the engine; they are kept as exact rationals. *)
Inductive number :=
| Fin (q : Qc)
| Inf (negative : bool).

(** A cell: the missing marker (NaN, None, NaT), a string, a number or a
    timestamp (nanoseconds since the epoch). *)
Inductive cell :=
| NaN
| Str (s : pystr)
| Num (x : number)
| Time (ns : Z).

(** The dtypes the engine tells apart: [object] against the rest. *)
Inductive dtype := DObject | DNumeric | DDatetime.

Definition number_eq_dec : forall a b : number, {a = b} + {a <> b}.
Proof.
  decide equality; [apply Qc_eq_dec | apply bool_dec].
Defined.

Definition cell_eq_dec : forall a b : cell, {a = b} + {a <> b}.
Proof.
  decide equality;
    [apply pystr_eq_dec | apply number_eq_dec | apply Z.eq_dec].
Defined.

Definition dtype_eq_dec : forall a b : dtype, {a = b} + {a <> b}.
Proof. decide equality. Defined.

Definition is_object (d : dtype) : bool :=
  match d with DObject => true | _ => false end.

(** [pd.isna] and [pd.notna] on a scalar. *)
Definition isna (c : cell) : bool :=
  match c with NaN => true | _ => false end.

Definition notna (c : cell) : bool := negb (isna c).

Definition row := list cell.
Definition series := list cell.

Definition row_eq_dec : forall a b : row, {a = b} + {a <> b} :=
  list_eq_dec cell_eq_dec.

(** Two rows are duplicates when all their cells agree; missing equals
    missing, as in [DataFrame.duplicated]. *)
Definition row_mem (r : row) (seen : list row) : bool :=
  if in_dec row_eq_dec r seen then true else false.

Record DataFrame := mkFrame {
  columns : list (pystr * dtype);
  rows : list row
}.

Definition labels (df : DataFrame) : list pystr := map fst (columns df).

(** [len(df)], [len(df.columns)], [df.size], [df.empty]. *)
Definition len (df : DataFrame) : nat := length (rows df).
Definition ncols (df : DataFrame) : nat := length (columns df).
Definition size (df : DataFrame) : nat := len df * ncols df.
Definition empty (df : DataFrame) : bool :=
  (len df =? 0) || (ncols df =? 0).

(** Every row is as wide as the header. *)
Definition rect (df : DataFrame) : Prop :=
  Forall (fun r => length r = ncols df) (rows df).

(** The invariant of a frame: unique labels, and rows as wide as the
    header. *)
Definition wf_frame (df : DataFrame) : Prop :=
  NoDup (labels df) /\ rect df.

(** Positional access to a column: its cells, top to bottom. *)
Definition column (j : nat) (df : DataFrame) : series :=
  map (fun r => nth j r NaN) (rows df).

Definition dtype_at (j : nat) (df : DataFrame) : option dtype :=
  option_map snd (nth_error (columns df) j).

Fixpoint upd {A} (j : nat) (x : A) (l : list A) : list A :=
  match l, j with
  | [], _ => []
  | _ :: t, O => x :: t
  | h :: t, S j' => h :: upd j' x t
  end.

(** Row by row, write the cells of [s] at position [j]. *)
Fixpoint assign (j : nat) (rs : list row) (s : series) : list row :=
  match rs, s with
  | r :: rs', c :: s' => upd j c r :: assign j rs' s'
  | _, _ => rs
  end.

(** [df[col] = s] for the existing column at position [j], whose dtype
    becomes [d]. *)
Definition set_column (j : nat) (d : dtype) (s : series) (df : DataFrame)
  : DataFrame :=
  {| columns :=
       match nth_error (columns df) j with
       | Some (l, _) => upd j (l, d) (columns df)
       | None => columns df
       end;
     rows := assign j (rows df) s |}.

(** The position of a label in the header. *)
Fixpoint index_of (l : pystr) (ls : list pystr) : option nat :=
  match ls with
  | [] => None
  | h :: t => if pystr_eq_dec l h then Some O
              else option_map S (index_of l t)
  end.

(** [s.dropna()] and [s.head(k)]. *)
Definition dropna_series (s : series) : series := filter notna s.
Definition head (k : nat) (s : series) : series := firstn k s.

(** [s.notna().sum()]. *)
Definition count_notna (s : series) : nat := length (filter notna s).
(** [s.isnull().sum()]. *)
Definition count_isna (s : series) : nat := length (filter isna s).

(** *** The three table-level cleaners *)

(** [df.dropna(how='all')]: a row goes when every cell of it is missing. *)
Definition all_missing (r : row) : bool := forallb isna r.

Definition remove_empty_rows (df : DataFrame) : DataFrame :=
  {| columns := columns df;
     rows := filter (fun r => negb (all_missing r)) (rows df) |}.

(** The marks of [df.duplicated()] on a frame with cells: a row is marked
    when an earlier row equals it. *)
Fixpoint duplicated_from (seen : list row) (rs : list row) : list bool :=
  match rs with
  | [] => []
  | r :: rs' =>
      if row_mem r seen then true :: duplicated_from seen rs'
      else false :: duplicated_from (r :: seen) rs'
  end.

(** [df.duplicated()].  pandas answers for an empty frame (no row, or no
    column) before it looks at the rows: the mask is then the empty
    series. *)
Definition duplicated (df : DataFrame) : list bool :=
  if empty df then [] else duplicated_from [] (rows df).

(** [df.duplicated().sum()]. *)
Definition count_true (m : list bool) : nat :=
  length (filter (fun b => b) m).

(** [df[mask]]: the rows the mask keeps, in order. *)
Fixpoint select (rs : list row) (keep : list bool) : list row :=
  match rs, keep with
  | r :: rs', k :: keep' =>
      if k then r :: select rs' keep' else select rs' keep'
  | _, _ => []
  end.

(** [df.drop_duplicates()]: the rows that are not marked; an empty frame
    is returned as it is, rows included when it has no column. *)
Definition remove_duplicates (df : DataFrame) : DataFrame :=
  if empty df then df
  else {| columns := columns df;
          rows := select (rows df) (map negb (duplicated df)) |}.

End Frame.
Import Frame.

(** ** Exceptions *)

(** What a call of the source does: return a value, or raise an exception
    of class [Exception] (the ones [except Exception] catches), kept by its
    message [str(e)]. *)
Inductive outcome (A : Type) : Type :=
| Returned (a : A)
| Raised (msg : pystr).

Arguments Returned {A} a.
Arguments Raised {A} msg.

Definition bind {A B} (c : outcome A) (k : A -> outcome B) : outcome B :=
  match c with
  | Returned a => k a
  | Raised e => Raised e
  end.

(** [try: body / except Exception as e: handler(e)]. *)
Definition try_except {A} (body : outcome A) (handler : pystr -> outcome A)
  : outcome A :=
  match body with
  | Returned a => Returned a
  | Raised e => handler e
  end.

(** Code the engine runs without knowing it, the snippet it passes to
    [exec], can also end in two ways no handler of the engine sees: with
    an exception outside class [Exception] ([SystemExit], as raised by
    [exit()], [KeyboardInterrupt], [GeneratorExit]), kept by the name of
    its class, or not at all. *)
Inductive escape :=
| Exits (exc : pystr)
| Hangs.

(** What a call does that may run such code: what [outcome] says, or the
    escape, which every [except Exception] lets through. *)
Inductive completion (A : Type) : Type :=
| Completes (o : outcome A)
| Escapes (x : escape).

Arguments Completes {A} o.
Arguments Escapes {A} x.

Coercion Completes : outcome >-> completion.

Declare Scope outcome_scope.
Delimit Scope outcome_scope with outcome.
Notation "x <- c ;; k" := (bind c (fun x => k))
  (at level 61, c at next level, right associativity) : outcome_scope.
Local Open Scope outcome_scope.

(** ** The interpreter and the libraries around the engine *)

(** How [exec(code)] ends: it returns or raises an [Exception], and the
    frame bound to [df] is then as the statements executed so far left it;
    or it escapes. *)
Inductive exec_end :=
| Ran (df' : DataFrame) (error : option pystr)
| Broke (x : escape).

(** What the engine calls and the repository does not define: the Unicode
    tables of [str] and [re], the printing and parsing of numbers, and the
    pandas routines whose result is not fixed by the source. *)
Record Runtime := mkRuntime {
  unicode_nd : codepoint -> bool;
  unicode_space : codepoint -> bool;
  unicode_lower : pystr -> pystr;
  (** [str(x)] for a number and for a timestamp *)
  str_of_number : number -> pystr;
  str_of_time : Z -> pystr;
  (** the number [pd.to_numeric] reads in a string; [None] when there is
      none, or when it is NaN *)
  pd_parse : pystr -> option number;
  (** [float(s)]: [None] for [ValueError]; [Some None] is the float nan *)
  py_float : pystr -> option (option number);
  (** [pd.to_datetime(s, errors='coerce')] *)
  pd_to_datetime : series -> outcome series;
  (** the dtype of the result of [Series.apply] *)
  apply_dtype : series -> dtype;
  (** [exec(code)] with the frame bound to [df] *)
  py_exec : pystr -> DataFrame -> exec_end
}.

(** ** The column cleaners *)

Module Cleaners.
Section WithRuntime.
Variable rt : Runtime.

Definition py_lower : pystr -> pystr := lower (unicode_lower rt).
Definition py_strip : pystr -> pystr := strip (unicode_space rt).

(** [str(value)]. *)
Definition py_str (value : cell) : pystr :=
  match value with
  | NaN => lit "nan"
  | Str s => s
  | Num x => str_of_number rt x
  | Time t => str_of_time rt t
  end.

(** A float as a cell: nan is the missing marker. *)
Definition float_cell (f : option number) : cell :=
  match f with
  | Some x => Num x
  | None => NaN
  end.

(** [format_phone], the closure of [clean_phone_numbers]. *)
Definition format_phone (phone : cell) : cell :=
  if isna phone then phone
  else
    let digits := digits_only (unicode_nd rt) (py_str phone) in
    if length digits =? 10 then
      Str (lit "(" ++ firstn 3 digits ++ lit ") "
           ++ firstn 3 (skipn 3 digits) ++ lit "-" ++ skipn 6 digits)
    else Str digits.

Definition clean_phone_numbers (s : series) : series :=
  map format_phone s.

(** The character class of [clean_money]: dollar, comma, euro, pound,
    yen. *)
Definition currency_symbols : list codepoint :=
  [36; 44; 8364; 163; 165]%N.

Definition is_currency_symbol (c : codepoint) : bool :=
  existsb (N.eqb c) currency_symbols.

(** [re.sub] of that class by the empty string. *)
Definition strip_currency (s : pystr) : pystr :=
  filter (fun c => negb (is_currency_symbol c)) s.

(** [clean_money], the closure of [clean_currency]. *)
Definition clean_money (value : cell) : cell :=
  if isna value then value
  else
    let cleaned := strip_currency (py_str value) in
    match py_float rt cleaned with
    | Some f => float_cell f
    | None => value
    end.

Definition clean_currency (s : series) : series := map clean_money s.

(** The [.str] accessor exists for a series of dtype [object] whose
    values, the missing ones apart, are strings or of mixed kinds; pandas
    raises [AttributeError] for the others. *)
Definition is_str (c : cell) : bool :=
  match c with Str _ => true | _ => false end.
Definition is_num (c : cell) : bool :=
  match c with Num _ => true | _ => false end.
Definition is_time (c : cell) : bool :=
  match c with Time _ => true | _ => false end.

Definition str_accessor_ok (d : dtype) (s : series) : bool :=
  is_object d &&
  (forallb isna s || existsb is_str s
   || (existsb is_num s && existsb is_time s)).

(** The dtype of what a [.str] method from strings to strings returns.  A
    cell that is not a string gives NaN; the result stays [object] when it
    holds a string, or when every cell of the series was missing; when
    nothing but NaN comes out of cells that were not all missing, pandas
    converts the result to [float64]. *)
Definition str_result_dtype (s : series) : dtype :=
  if forallb isna s || existsb is_str s then DObject else DNumeric.

(** [s.str.f()] for a series [s] of dtype [d]: the result with its
    dtype. *)
Definition str_method (f : pystr -> pystr) (d : dtype) (s : series)
  : outcome (dtype * series) :=
  if str_accessor_ok d s then
    Returned
      (str_result_dtype s,
       map (fun c => match c with Str x => Str (f x) | _ => NaN end) s)
  else Raised (lit "Can only use .str accessor with string values!").

(** [series.str.lower().str.strip()], for a column of dtype [object]: the
    second accessor is taken on the result of the first. *)
Definition clean_emails (s : series) : outcome series :=
  lowered <- str_method py_lower DObject s ;;
  stripped <- str_method py_strip (fst lowered) (snd lowered) ;;
  Returned (snd stripped).

Definition clean_dates (s : series) : outcome series :=
  pd_to_datetime rt s.

(** [pd.to_numeric(s, errors='coerce')], cell by cell. *)
Definition to_numeric_cell (c : cell) : cell :=
  match c with
  | Str s => float_cell (pd_parse rt s)
  | Num x => Num x
  | NaN | Time _ => NaN
  end.

Definition to_numeric (s : series) : series := map to_numeric_cell s.

(** The test of [basic_type_conversion] for the column at position [j]:
    it is a text column, and more of its cells convert than 0.7 times the
    number of rows. *)
Definition coerces (df : DataFrame) (j : nat) : bool :=
  match dtype_at j df with
  | Some DObject =>
      F64.count_exceeds (count_notna (to_numeric (column j df))) (len df)
                        F64.lit_0_7
  | _ => false
  end.

(** One turn of the loop of [basic_type_conversion], for the column at
    position [j]. *)
Definition convert_column (df : DataFrame) (j : nat) : DataFrame :=
  match dtype_at j df with
  | Some DObject =>
      let converted := to_numeric (column j df) in
      if F64.count_exceeds (count_notna converted) (len df) F64.lit_0_7
      then set_column j DNumeric converted df
      else df
  | _ => df
  end.

Definition basic_type_conversion (df : DataFrame) : DataFrame :=
  fold_left convert_column (seq 0 (ncols df)) df.

(** The deterministic cleaning of [clean_data], in its order. *)
Definition basic_cleaning (df : DataFrame) : DataFrame :=
  basic_type_conversion (remove_duplicates (remove_empty_rows df)).

End WithRuntime.
End Cleaners.
Import Cleaners.

(** ** The issue detector *)

Module Detector.

(** A diagnostic, by the data its message prints. *)
Inductive issue :=
| EmptyRows (empty_rows : nat)
| DuplicateRows (duplicate_rows : nat)
| HighMissing (col : pystr) (null_percentage : F64.float)
| NumericAsText (col : pystr).

(** [enumerate(df.columns)]. *)
Definition enumerate {A} (l : list A) : list (nat * A) :=
  combine (seq 0 (length l)) l.

(** The quotient of a numpy integer by an integer is a float division: by
    zero it gives nan or an infinity and a [RuntimeWarning], and does not
    raise. *)
Definition np_true_divide (a b : nat) : outcome F64.float :=
  Returned (F64.div (F64.of_nat a) (F64.of_nat b)).

Section WithRuntime.
Variable rt : Runtime.

(** The body of the first loop over the columns. *)
Definition check_missing (df : DataFrame) (jc : nat * (pystr * dtype))
  : outcome (list issue) :=
  let '(j, (col, _)) := jc in
  q <- np_true_divide (count_isna (column j df)) (len df) ;;
  let null_percentage := F64.mul q (F64.of_nat 100) in
  if F64.gtb null_percentage (F64.of_nat 50)
  then Returned [HighMissing col null_percentage]
  else Returned [].

(** The body of the second loop over the columns. *)
Definition check_numeric_text (df : DataFrame) (jc : nat * (pystr * dtype))
  : list issue :=
  let '(j, (col, d)) := jc in
  if is_object d then
    let sample_values := head 10 (dropna_series (column j df)) in
    if 0 <? length sample_values then
      let numeric_count := count_notna (to_numeric rt sample_values) in
      if F64.count_exceeds numeric_count (length sample_values) F64.lit_0_7
      then [NumericAsText col]
      else []
    else []
  else [].

(** A loop that appends what each turn reports. *)
Fixpoint collect {A B} (f : A -> outcome (list B)) (l : list A)
  : outcome (list B) :=
  match l with
  | [] => Returned []
  | a :: l' =>
      here <- f a ;;
      rest <- collect f l' ;;
      Returned (here ++ rest)
  end.

Definition detect_issues (df : DataFrame) : outcome (list issue) :=
  let empty_rows := length (filter all_missing (rows df)) in
  let issues1 := if 0 <? empty_rows then [EmptyRows empty_rows] else [] in
  let duplicate_rows := count_true (duplicated df) in
  let issues2 :=
    if 0 <? duplicate_rows then [DuplicateRows duplicate_rows] else [] in
  issues3 <- collect (check_missing df) (enumerate (columns df)) ;;
  let issues4 :=
    flat_map (check_numeric_text df) (enumerate (columns df)) in
  Returned (issues1 ++ issues2 ++ issues3 ++ issues4).

End WithRuntime.
End Detector.
Import Detector.

(** ** The quality scorer *)

Module Scorer.

(** A number as [calculate_quality_score] returns it: the [int] 0 or 100
    of its literals, or a [numpy.float64]. *)
Inductive pynum :=
| PyInt (n : Z)
| PyFloat (x : F64.float).

Definition score := pynum.

(** An [int] beside a float is converted to a float. *)
Definition as_float (v : pynum) : F64.float :=
  match v with
  | PyInt n => F64.of_Z n
  | PyFloat x => x
  end.

Definition py_lt (a b : pynum) : bool := F64.lt (as_float a) (as_float b).

(** The builtins [min(a, b)] and [max(a, b)]: the first argument, unless
    the second is smaller (larger). *)
Definition py_min (a b : pynum) : pynum := if py_lt b a then b else a.
Definition py_max (a b : pynum) : pynum := if py_lt a b then b else a.

(** [round(v, 1)]: an [int] is returned as it is. *)
Definition py_round1 (v : pynum) : pynum :=
  match v with
  | PyInt n => PyInt n
  | PyFloat x => PyFloat (F64.round1 x)
  end.

(** [sum(l)] of floats: from the [int] 0, left to right. *)
Definition py_sum (l : list F64.float) : F64.float :=
  fold_left F64.add l (F64.of_Z 0).

Section WithRuntime.
Variable rt : Runtime.

(** [df.isnull().sum().sum()]. *)
Definition null_cells (df : DataFrame) : nat :=
  list_sum (map (fun j => count_isna (column j df)) (seq 0 (ncols df))).

(** [(total_cells - null_cells) / total_cells]: the quotient of two
    integers, one of them numpy's, is a float division. *)
Definition completeness (df : DataFrame) : F64.float :=
  F64.div (F64.of_nat (size df - null_cells df)) (F64.of_nat (size df)).

Definition uniqueness (df : DataFrame) : F64.float :=
  if 0 <? len df
  then F64.sub (F64.of_Z 1)
               (F64.div (F64.of_nat (count_true (duplicated df)))
                        (F64.of_nat (len df)))
  else F64.of_Z 1.

(** What one column adds to [consistency_score]. *)
Definition column_consistency (df : DataFrame) (jc : nat * (pystr * dtype))
  : F64.float :=
  let '(j, (_, d)) := jc in
  if is_object d then
    let sample_values := head 20 (dropna_series (column j df)) in
    if 0 <? length sample_values then
      let numeric_count := count_notna (to_numeric rt sample_values) in
      if F64.count_exceeds numeric_count (length sample_values) F64.lit_0_8
      then F64.lit_0_5
      else F64.of_Z 1
    else F64.of_Z 1
  else F64.of_Z 1.

Definition consistency (df : DataFrame) : F64.float :=
  let consistency_score :=
    fold_left (fun acc jc => F64.add acc (column_consistency df jc))
              (enumerate (columns df)) (F64.of_Z 0) in
  if 0 <? ncols df
  then F64.div consistency_score (F64.of_nat (ncols df))
  else F64.of_Z 1.

(** [df[col].astype(str).str.len().max()], on a frame with rows. *)
Definition max_length (s : series) : nat :=
  fold_left Nat.max (map (fun c => length (py_str rt c)) s) 0%nat.

(** What one column adds to [validity_score]. *)
Definition column_validity (df : DataFrame) (jc : nat * (pystr * dtype))
  : F64.float :=
  let '(j, (_, d)) := jc in
  if is_object d then
    if max_length (column j df) <? 1000 then F64.of_Z 1 else F64.lit_0_5
  else F64.of_Z 1.

Definition validity (df : DataFrame) : F64.float :=
  let validity_score :=
    fold_left (fun acc jc => F64.add acc (column_validity df jc))
              (enumerate (columns df)) (F64.of_Z 0) in
  if 0 <? ncols df
  then F64.div validity_score (F64.of_nat (ncols df))
  else F64.of_Z 1.

Definition calculate_quality_score (df : DataFrame) : score :=
  if empty df then PyInt 0
  else
    let quality_factors :=
      [F64.mul (completeness df) F64.lit_0_4;
       F64.mul (uniqueness df) F64.lit_0_3;
       F64.mul (consistency df) F64.lit_0_2;
       F64.mul (validity df) F64.lit_0_1] in
    let final_score := F64.mul (py_sum quality_factors) (F64.of_Z 100) in
    py_round1 (py_max (PyInt 0) (py_min (PyInt 100) (PyFloat final_score))).

End WithRuntime.
End Scorer.
Import Scorer.

(** ** The text-generation service, the classifier and the interpreter *)

Module Engine.

(** What the engine asks the service: the type of a column, from a sample
    of its values, or code for an instruction. *)
Inductive request :=
| AskColumnType (col : pystr) (sample_values : series)
| AskCode (nrows : nat) (cols : list pystr) (instructions : pystr).

(** The service answers with [response.choices[0].message.content], or the
    call, or a step taken on its response, raises. *)
Definition client := request -> outcome pystr.

Record CSVCleaner := mkCleaner {
  groq_client : option client
}.

(** A Python dict with string keys, in insertion order. *)
Definition dict := list (pystr * pystr).

Fixpoint dict_set (k v : pystr) (d : dict) : dict :=
  match d with
  | [] => [(k, v)]
  | (k', v') :: d' =>
      if pystr_eq_dec k k' then (k, v) :: d' else (k', v') :: dict_set k v d'
  end.

(** The labels the prompt of the classifier lists. *)
Definition closed_labels : list pystr :=
  map lit ["email"; "phone"; "date"; "name"; "address"; "currency"; "url";
           "text"]%string.

(** The deny-list of [apply_user_instructions]. *)
Definition dangerous_tokens : list pystr :=
  map lit ["import"; "exec"; "eval"; "open"; "file"]%string.

Section WithRuntime.
Variable rt : Runtime.

(** The [try] statement in the loop of [analyze_columns_with_llm]. *)
Definition classify_column (chat : client) (col : pystr)
           (sample_values : series) : outcome pystr :=
  try_except
    (content <- chat (AskColumnType col sample_values) ;;
     Returned (py_lower rt (py_strip rt content)))
    (fun _ => Returned (lit "text")).

Fixpoint analyze_loop (chat : client) (df : DataFrame)
         (cols : list (nat * (pystr * dtype))) (column_types : dict)
  : outcome dict :=
  match cols with
  | [] => Returned column_types
  | (j, (col, d)) :: cols' =>
      if is_object d then
        let sample_values := head 3 (dropna_series (column j df)) in
        match sample_values with
        | [] => analyze_loop chat df cols' column_types
        | _ :: _ =>
            col_type <- classify_column chat col sample_values ;;
            analyze_loop chat df cols' (dict_set col col_type column_types)
        end
      else analyze_loop chat df cols' column_types
  end.

Definition analyze_columns_with_llm (self : CSVCleaner) (df : DataFrame)
  : outcome dict :=
  match groq_client self with
  | None => Returned []
  | Some chat => analyze_loop chat df (enumerate (columns df)) []
  end.

Definition is_dangerous (code : pystr) : bool :=
  existsb (fun dangerous => contains dangerous (py_lower rt code))
          dangerous_tokens.

(** Both the normal exit and the handler return the frame object that
    [exec] worked on; the handler catches what is of class [Exception],
    and an escape of [exec] leaves the method. *)
Definition apply_user_instructions (self : CSVCleaner) (df : DataFrame)
           (instructions : pystr) : completion DataFrame :=
  match groq_client self with
  | None => Completes (Returned df)
  | Some chat =>
      match chat (AskCode (len df) (labels df) instructions) with
      | Raised _ => Completes (Returned df)
      | Returned content =>
          let code := py_strip rt content in
          if is_dangerous code then Completes (Returned df)
          else
            match py_exec rt code df with
            | Ran df' None => Completes (Returned df')
            | Ran df' (Some _) => Completes (Returned df')
            | Broke x => Escapes x
            end
      end
  end.

End WithRuntime.
End Engine.
Import Engine.

(** ** The orchestrator *)

Module Pipeline.

Record Report := mkReport {
  original_rows : nat;
  original_columns : nat;
  operations_performed : list pystr;
  data_quality_score_before : score;
  issues_found : list issue;
  column_analysis : option dict;
  llm_error : option pystr;
  final_rows : nat;
  final_columns : nat;
  data_quality_score_after : score;
  rows_removed : Z
}.

Record Result := mkResult {
  cleaned_data : DataFrame;
  report : Report
}.

(** What the [try] block of [clean_data] updates: the frame bound to [df]
    and two entries of the report. *)
Record Run := mkRun {
  frame : DataFrame;
  operations : list pystr;
  analysis : option dict
}.

Definition basic_operations : list pystr :=
  map lit ["Removed empty rows"; "Removed duplicates";
           "Basic type conversion"]%string.

(** [f"{what}'{col}'"]. *)
Definition quoted (what : string) (col : pystr) : pystr :=
  lit what ++ col ++ lit "'".

Definition applied_line (user_instructions : pystr) : pystr :=
  lit "Applied custom instructions: " ++ user_instructions.

(** What the [try] block keeps of the state it starts from: the number of
    rows, the header, and the operations already reported. *)
Definition extends (run run' : Run) : Prop :=
  len (frame run') = len (frame run) /\
  labels (frame run') = labels (frame run) /\
  exists more, operations run' = operations run ++ more.

(** How the [try] statement of [clean_data] ends: with the state reached
    and the [Exception] its handler caught, if any; or with the escape of
    the snippet executed in it. *)
Inductive block_end :=
| Ended (run : Run) (error : option pystr)
| Escaped (x : escape).

(** [str(KeyError(col))]. *)
Definition key_error (col : pystr) : pystr := lit "'" ++ col ++ lit "'".

Section WithRuntime.
Variable rt : Runtime.

(** [df[col] = cleaner(df[col])] and the line appended after it.  The
    state at an exception is the one reached before the statement. *)
Definition clean_in_place (run : Run) (col : pystr)
           (cleaner : series -> outcome series)
           (dtype_of : series -> dtype) (line : pystr)
  : Run * option pystr :=
  let df := frame run in
  match index_of col (labels df) with
  | None => (run, Some (key_error col))
  | Some j =>
      match cleaner (column j df) with
      | Raised e => (run, Some e)
      | Returned s =>
          (mkRun (set_column j (dtype_of s) s df)
                 (operations run ++ [line]) (analysis run), None)
      end
  end.

(** One turn of the loop over [column_analysis.items()]. *)
Definition clean_typed_column (run : Run) (item : pystr * pystr)
  : Run * option pystr :=
  let '(col, col_type) := item in
  if pystr_eq_dec col_type (lit "email") then
    clean_in_place run col (clean_emails rt) (fun _ => DObject)
                   (quoted "Cleaned emails in '" col)
  else if pystr_eq_dec col_type (lit "phone") then
    clean_in_place run col (fun s => Returned (clean_phone_numbers rt s))
                   (apply_dtype rt) (quoted "Standardized phones in '" col)
  else if pystr_eq_dec col_type (lit "date") then
    clean_in_place run col (clean_dates rt) (fun _ => DDatetime)
                   (quoted "Standardized dates in '" col)
  else if pystr_eq_dec col_type (lit "currency") then
    clean_in_place run col (fun s => Returned (clean_currency rt s))
                   (apply_dtype rt) (quoted "Cleaned currency in '" col)
  else (run, None).

Fixpoint dispatch (run : Run) (items : dict) : Run * option pystr :=
  match items with
  | [] => (run, None)
  | item :: items' =>
      match clean_typed_column run item with
      | (run', None) => dispatch run' items'
      | (run', Some e) => (run', Some e)
      end
  end.

(** The step [if user_instructions: ...] of the [try] block. *)
Definition instruction_step (self : CSVCleaner) (run : Run)
           (user_instructions : pystr) : block_end :=
  match user_instructions with
  | [] => Ended run None
  | _ :: _ =>
      match apply_user_instructions rt self (frame run) user_instructions
      with
      | Completes (Raised e) => Ended run (Some e)
      | Completes (Returned df) =>
          Ended (mkRun df (operations run ++ [applied_line user_instructions])
                       (analysis run)) None
      | Escapes x => Escaped x
      end
  end.

(** The state after the column cleaners, where the instructions step
    starts. *)
Definition typed_cleaning (self : CSVCleaner) (run : Run)
  : Run * option pystr :=
  match analyze_columns_with_llm rt self (frame run) with
  | Raised e => (run, Some e)
  | Returned types =>
      dispatch (mkRun (frame run) (operations run) (Some types)) types
  end.

(** The [try] block with its handler [except Exception as e]. *)
Definition enhance (self : CSVCleaner) (run : Run)
           (user_instructions : pystr) : block_end :=
  match typed_cleaning self run with
  | (run', Some e) => Ended run' (Some e)
  | (run', None) => instruction_step self run' user_instructions
  end.

Definition llm_enabled (self : CSVCleaner) (basic_only : bool) : bool :=
  negb basic_only &&
  match groq_client self with Some _ => true | None => false end.

(** The statements of [clean_data] after the [try] statement. *)
Definition final_report (df : DataFrame) (initial_quality : score)
           (initial_issues : list issue) (run : Run) (error : option pystr)
  : Result :=
  {| cleaned_data := frame run;
     report :=
       {| original_rows := len df;
          original_columns := ncols df;
          operations_performed := operations run;
          data_quality_score_before := initial_quality;
          issues_found := initial_issues;
          column_analysis := analysis run;
          llm_error := error;
          final_rows := len (frame run);
          final_columns := ncols (frame run);
          data_quality_score_after :=
            calculate_quality_score rt (frame run);
          rows_removed :=
            (Z.of_nat (len df) - Z.of_nat (len (frame run)))%Z |} |}.

Definition clean_data (self : CSVCleaner) (df : DataFrame)
           (user_instructions : pystr) (basic_only : bool)
  : completion Result :=
  let initial_quality := calculate_quality_score rt df in
  match detect_issues rt df with
  | Raised e => Completes (Raised e)
  | Returned initial_issues =>
      let run0 := mkRun (basic_cleaning rt df) basic_operations None in
      let block :=
        if llm_enabled self basic_only
        then enhance self run0 user_instructions
        else Ended run0 None in
      match block with
      | Ended run error =>
          Completes
            (Returned (final_report df initial_quality initial_issues
                                    run error))
      | Escaped x => Escapes x
      end
  end.

End WithRuntime.
End Pipeline.
Import Pipeline.

(** ** A runtime to run examples with *)

Module Sample.

(** Plain decimal literals: an optional minus sign, digits, and an optional
    fraction.  On them [float] and [pd.to_numeric] agree. *)
Fixpoint digits_value (acc : Z) (s : pystr) : option Z :=
  match s with
  | [] => Some acc
  | c :: r =>
      if ascii_digit c
      then digits_value (10 * acc + (Z.of_N c - 48))%Z r
      else None
  end.

Fixpoint split_at_dot (s : pystr) : pystr * option pystr :=
  match s with
  | [] => ([], None)
  | c :: r =>
      if (c =? 46)%N then ([], Some r)
      else let '(a, b) := split_at_dot r in (c :: a, b)
  end.

Definition unsigned_decimal (s : pystr) : option Q :=
  match split_at_dot s with
  | ([], _) => None
  | (whole, None) => option_map inject_Z (digits_value 0 whole)
  | (_, Some []) => None
  | (whole, Some frac) =>
      match digits_value 0 whole, digits_value 0 frac with
      | Some w, Some f =>
          Some (inject_Z w + inject_Z f / inject_Z (10 ^ Z.of_nat (length frac)))
      | _, _ => None
      end
  end.

Definition plain_decimal (s : pystr) : option number :=
  match s with
  | 45%N :: r => option_map (fun q => Fin (Q2Qc (- q))) (unsigned_decimal r)
  | _ => option_map (fun q => Fin (Q2Qc q)) (unsigned_decimal s)
  end.

Definition plain_runtime : Runtime :=
  {| unicode_nd := fun _ => false;
     unicode_space := fun _ => false;
     unicode_lower := fun s => s;
     str_of_number := fun _ => lit "0.0";
     str_of_time := fun _ => lit "1970-01-01 00:00:00";
     pd_parse := plain_decimal;
     py_float := fun s => option_map Some (plain_decimal s);
     pd_to_datetime := fun s => Returned (map (fun _ => NaN) s);
     apply_dtype := fun s => if existsb is_str s then DObject else DNumeric;
     py_exec := fun _ df => Ran df None |}.

Definition str (s : string) : cell := Str (lit s).

(** A service that labels every column [text] and answers every
    instruction with an import. *)
Definition importing_chat : client :=
  fun req =>
    match req with
    | AskColumnType _ _ => Returned (lit "text")
    | AskCode _ _ _ => Returned (lit "import os")
    end.

(** A service that labels every column [email]. *)
Definition email_chat : client :=
  fun req =>
    match req with
    | AskColumnType _ _ => Returned (lit "Email")
    | AskCode _ _ _ => Raised (lit "rate limit")
    end.

(** A service that answers every instruction with a snippet that leaves
    the interpreter; none of the five tokens occurs in it. *)
Definition exiting_chat : client :=
  fun req =>
    match req with
    | AskColumnType _ _ => Returned (lit "text")
    | AskCode _ _ _ => Returned (lit "raise SystemExit")
    end.

(** The runtime in which that snippet does what it says. *)
Definition exiting_runtime : Runtime :=
  {| unicode_nd := unicode_nd plain_runtime;
     unicode_space := unicode_space plain_runtime;
     unicode_lower := unicode_lower plain_runtime;
     str_of_number := str_of_number plain_runtime;
     str_of_time := str_of_time plain_runtime;
     pd_parse := pd_parse plain_runtime;
     py_float := py_float plain_runtime;
     pd_to_datetime := pd_to_datetime plain_runtime;
     apply_dtype := apply_dtype plain_runtime;
     py_exec := fun code df =>
                  if pystr_eq_dec code (lit "raise SystemExit")
                  then Broke (Exits (lit "SystemExit"))
                  else Ran df None |}.

Definition people : DataFrame :=
  mkFrame [(lit "name", DObject); (lit "phone", DObject)]
          [[str "Ann"; str "555-123-4567"]; [str "Bob"; str "12345"]].

(** A text column with one numeral and two missing values, beside a
    column of strings. *)
Definition gaps : DataFrame :=
  mkFrame [(lit "n", DObject); (lit "tag", DObject)]
          [[str "1"; str "p"]; [NaN; str "q"]; [NaN; str "r"]].

(** Three numerals and a word: after coercion the last row is missing. *)
Definition mostly_numbers : DataFrame :=
  mkFrame [(lit "x", DObject)]
          [[str "1"]; [str "2"]; [str "3"]; [str "x"]].

(** Rows A, A, B of numerals. *)
Definition twice : DataFrame :=
  mkFrame [(lit "x", DObject)] [[str "1"]; [str "1"]; [str "2"]].

(** Rows A, A, B of words. *)
Definition words : DataFrame :=
  mkFrame [(lit "w", DObject)] [[str "a"]; [str "a"]; [str "b"]].

(** Eight rows in two text columns, with one missing cell and one
    duplicate row. *)
Definition tied : DataFrame :=
  mkFrame [(lit "a", DObject); (lit "b", DObject)]
          [[str "p"; str "q"]; [str "p"; str "q"]; [str "r"; NaN];
           [str "s"; str "t"]; [str "u"; str "v"]; [str "w"; str "x"];
           [str "y"; str "z"]; [str "k"; str "l"]].


End Sample.

(** ** Statements of the specification

    The statements that are compared with the code rather than proved of
    it are written here as the specification words them, with the two
    notions they need. *)

Module Stated.

(** The label [classify_column] gives for a column: the fallback when the
    service raised, the normalised reply otherwise. *)
Definition label_for (rt : Runtime) (chat : client) (col : pystr)
           (sample_values : series) : pystr :=
  match chat (AskColumnType col sample_values) with
  | Raised _ => lit "text"
  | Returned content => py_lower rt (py_strip rt content)
  end.

(** "The resulting label is always a member of the closed set." *)
Definition labels_always_closed : Prop :=
  forall rt self df,
  exists column_types,
    analyze_columns_with_llm rt self df = Returned column_types /\
    forall col col_type,
      In (col, col_type) column_types -> In col_type closed_labels.

(** The state in which the [try] block of [clean_data] starts. *)
Definition run0 (rt : Runtime) (df : DataFrame) : Run :=
  mkRun (basic_cleaning rt df) basic_operations None.

(** "A snippet with a deny-listed substring is rejected: the table is
    returned unchanged by that step, no error is surfaced, and no
    'Applied custom instructions' line is added." *)
Definition rejected_snippet_leaves_no_line : Prop :=
  forall rt chat df user_instructions run1 content,
    user_instructions <> [] ->
    typed_cleaning rt (mkCleaner (Some chat)) (run0 rt df) = (run1, None) ->
    chat (AskCode (len (frame run1)) (labels (frame run1)) user_instructions)
    = Returned content ->
    is_dangerous rt (py_strip rt content) = true ->
    exists r,
      clean_data rt (mkCleaner (Some chat)) df user_instructions false
      = Returned r /\
      cleaned_data r = frame run1 /\
      llm_error (report r) = None /\
      ~ In (applied_line user_instructions)
           (operations_performed (report r)).

(** "For every run in which the classification or instruction stage
    raises an exception, clean_data does not abort: it records the error
    message under llm_error and still returns a result."  A stage raises
    when its method leaves with an exception, of whatever class. *)
Definition stage_raises (rt : Runtime) (self : CSVCleaner) (run : Run)
           (user_instructions : pystr) (exc : pystr) : Prop :=
  analyze_columns_with_llm rt self (frame run) = Raised exc \/
  exists run1,
    typed_cleaning rt self run = (run1, None) /\
    user_instructions <> [] /\
    (apply_user_instructions rt self (frame run1) user_instructions
     = Completes (Raised exc) \/
     apply_user_instructions rt self (frame run1) user_instructions
     = Escapes (Exits exc)).

Definition failure_never_aborts : Prop :=
  forall rt self df user_instructions basic_only exc,
    llm_enabled self basic_only = true ->
    stage_raises rt self (run0 rt df) user_instructions exc ->
    exists r,
      clean_data rt self df user_instructions basic_only = Returned r /\
      llm_error (report r) <> None.

(** "Replace the column if and only if at least 70% of its non-missing
    values convert." *)
Definition converts_70_percent_of_present (rt : Runtime) (s : series)
  : Prop :=
  (7 * count_notna s <= 10 * count_notna (to_numeric rt s))%nat.

Definition coercion_by_share_of_present : Prop :=
  forall rt df j,
    wf_frame df ->
    dtype_at j df = Some DObject ->
    (converts_70_percent_of_present rt (column j df) ->
     column j (basic_type_conversion rt df) = to_numeric rt (column j df)) /\
    (~ converts_70_percent_of_present rt (column j df) ->
     column j (basic_type_conversion rt df) = column j df).

(** "For rows [A, A, B] the cleaned result has rows [A, B] and
    rows_removed is 1." *)
Definition duplicates_leave_rows_A_B : Prop :=
  forall rt self df A B user_instructions basic_only,
    wf_frame df ->
    rows df = [A; A; B] -> A <> B ->
    all_missing A = false -> all_missing B = false ->
    exists r,
      clean_data rt self df user_instructions basic_only = Returned r /\
      rows (cleaned_data r) = [A; B] /\
      rows_removed (report r) = 1%Z.

(** "Applying the deterministic cleaning twice yields the same rows and
    columns as applying it once." *)
Definition cleaning_idempotent : Prop :=
  forall rt df,
    wf_frame df ->
    basic_cleaning rt (basic_cleaning rt df) = basic_cleaning rt df.

(** "For every table with at least one column and zero rows
    detect_issues fails instead of returning a list." *)
Definition detect_fails_without_rows : Prop :=
  forall rt df,
    (1 <= ncols df)%nat -> len df = 0%nat ->
    exists e, detect_issues rt df = Raised e.

(** "100 times the sum of the four weighted factors": the sum, in the
    arithmetic of the code and in the order of [sum], from 0. *)
Definition weighted_sum (rt : Runtime) (df : DataFrame) : F64.float :=
  F64.add
    (F64.add
       (F64.add
          (F64.add (F64.of_Z 0) (F64.mul (completeness df) F64.lit_0_4))
          (F64.mul (uniqueness df) F64.lit_0_3))
       (F64.mul (consistency rt df) F64.lit_0_2))
    (F64.mul (validity rt df) F64.lit_0_1).


End Stated.
Import Stated.

(** ** Notions for the properties of the engine *)

Module Notions.

(** The labels [clean_data] has a cleaner for. *)
Definition cleaned_labels : list pystr :=
  map lit ["email"; "phone"; "date"; "currency"]%string.

(** The columns the classifier asks about: text columns with a value that
    is not missing. *)
Definition classified (df : DataFrame) (jc : nat * (pystr * dtype)) : bool :=
  is_object (snd (snd jc)) && existsb notna (column (fst jc) df).

Definition classified_labels (df : DataFrame) : list pystr :=
  map (fun jc => fst (snd jc)) (filter (classified df) (enumerate (columns df))).

(** The rows of a frame with cells that [duplicated] does not mark. *)
Definition kept_rows (rs : list row) : list row :=
  select rs (map negb (duplicated_from [] rs)).

(** [series.str.lower().str.strip()] on one string. *)
Definition clean_email (rt : Runtime) (c : cell) : cell :=
  match c with
  | Str x => Str (py_strip rt (py_lower rt x))
  | _ => NaN
  end.

End Notions.
Import Notions.

(** * Properties *)

(** ** The phone and currency cleaners *)

Lemma digits_only_keeps nd s :
  Forall (fun c => is_digit nd c = true) s -> digits_only nd s = s.
Proof.
  unfold digits_only. induction s as [|a s IH]; intros H; simpl.
  - reflexivity.
  - inversion H; subst.
    match goal with E : is_digit nd a = true |- _ => rewrite E end.
    f_equal. apply IH. assumption.
Qed.




(** C8.  A value that is not missing is printed, its non-digit characters
    are dropped, and ten remaining digits are laid out as (DDD) DDD-DDDD;
    any other number of digits is returned as the digit string.  A missing
    value is returned as it is.  The two examples of the specification. *)
Theorem phone_cleaner_formats (rt : Runtime) :
  (forall v, isna v = false ->
     let digits := digits_only (unicode_nd rt) (py_str rt v) in
     (forall c, In c digits <->
                In c (py_str rt v) /\ is_digit (unicode_nd rt) c = true) /\
     (Forall (fun c => is_digit (unicode_nd rt) c = true) (py_str rt v) ->
      digits = py_str rt v) /\
     (forall a b c d e f g h i j,
        digits = [a; b; c; d; e; f; g; h; i; j] ->
        format_phone rt v =
        Str [40; a; b; c; 41; 32; d; e; f; 45; g; h; i; j]%N) /\
     (length digits <> 10%nat -> format_phone rt v = Str digits)) /\
  (forall v, isna v = true -> format_phone rt v = v) /\
  (forall s, clean_phone_numbers rt s = map (format_phone rt) s) /\
  format_phone rt (Sample.str "555-123-4567") = Sample.str "(555) 123-4567" /\
  format_phone rt (Sample.str "12345") = Sample.str "12345".
Proof.
  split; [|split; [|split; [|split]]]; try reflexivity.
  - intros v Hv digits. split; [|split; [|split]].
    + intros c. apply filter_In.
    + apply digits_only_keeps.
    + intros a b c d e f g h i j Hd.
      unfold format_phone. rewrite Hv. fold digits. rewrite Hd. reflexivity.
    + intros Hlen. unfold format_phone. rewrite Hv. fold digits.
      apply Nat.eqb_neq in Hlen. rewrite Hlen. reflexivity.
  - intros v Hv. unfold format_phone. rewrite Hv. reflexivity.
Qed.

Lemma phone_cleaner_formats_witness :
  isna (Sample.str "555-123-4567") = false /\
  format_phone Sample.plain_runtime (Sample.str "555 123 4567 x") =
  Sample.str "(555) 123-4567".
Proof.
  split; [reflexivity|].
  destruct (phone_cleaner_formats Sample.plain_runtime) as [H _].
  destruct (H (Sample.str "555 123 4567 x") eq_refl) as [_ [_ [H10 _]]].
  exact (H10 53 53 53 49 50 51 52 53 54 55 eq_refl)%N.
Defined.



(** ** The issue detector on a table without rows *)

Lemma collect_returns A B (f : A -> outcome (list B)) (l : list A) :
  (forall a, In a l -> exists r, f a = Returned r) ->
  exists r, collect f l = Returned r.
Proof.
  induction l as [|a l IH]; intros H; simpl.
  - eexists; reflexivity.
  - destruct (H a (or_introl eq_refl)) as [r Hr]. rewrite Hr. simpl.
    destruct IH as [r' Hr'].
    + intros b Hb. apply H. right; assumption.
    + rewrite Hr'. simpl. eexists; reflexivity.
Qed.

Lemma collect_nothing A B (f : A -> outcome (list B)) (l : list A) :
  (forall a, In a l -> f a = Returned []) -> collect f l = Returned [].
Proof.
  induction l as [|a l IH]; intros H; simpl.
  - reflexivity.
  - rewrite (H a (or_introl eq_refl)). simpl.
    rewrite IH; [reflexivity|]. intros b Hb. apply H. right; assumption.
Qed.

Lemma check_missing_returns df jc :
  exists r, check_missing df jc = Returned r.
Proof.
  destruct jc as [j [col d]]. unfold check_missing, np_true_divide. simpl.
  destruct (F64.gtb _ _); eexists; reflexivity.
Qed.

Lemma flat_map_nothing A B (f : A -> list B) (l : list A) :
  (forall a, In a l -> f a = []) -> flat_map f l = [].
Proof.
  induction l as [|a l IH]; intros H; simpl.
  - reflexivity.
  - rewrite (H a (or_introl eq_refl)). simpl.
    apply IH. intros b Hb. apply H. right; assumption.
Qed.

(** C10 (as the code has it).  [detect_issues] returns a list for every
    table.  For a table without rows the quotient of the missing count by
    the row count is the float 0/0, which is nan; nan is not greater than
    50, and the list returned is empty. *)
Theorem detect_issues_total (rt : Runtime) :
  (forall df, exists issues, detect_issues rt df = Returned issues) /\
  np_true_divide 0 0 = Returned S754_nan /\
  (forall df, len df = 0%nat -> detect_issues rt df = Returned []).
Proof.
  split; [|split].
  - intros df. unfold detect_issues.
    destruct (collect_returns (check_missing df) (enumerate (columns df)))
      as [r Hr].
    + intros a _. apply check_missing_returns.
    + rewrite Hr. simpl. eexists; reflexivity.
  - reflexivity.
  - intros [cols rs] Hlen. unfold len in Hlen. simpl in Hlen.
    destruct rs; [|discriminate].
    unfold detect_issues, duplicated. simpl.
    rewrite collect_nothing.
    + simpl. rewrite flat_map_nothing; [reflexivity|].
      intros [j [col d]] _. unfold check_numeric_text, column. simpl.
      destruct (is_object d); reflexivity.
    + intros [j [col d]] _. reflexivity.
Qed.

Lemma detect_issues_total_witness :
  detect_issues Sample.plain_runtime (mkFrame [(lit "a", DObject)] [])
  = Returned [].
Proof.
  apply (detect_issues_total Sample.plain_runtime). reflexivity.
Defined.

Lemma detect_on_no_rows_does_not_fail : ~ detect_fails_without_rows.
Proof.
  intros H.
  destruct (H Sample.plain_runtime (mkFrame [(lit "a", DObject)] []))
    as [e He]; [apply le_n | reflexivity |].
  discriminate He.
Qed.

(** ** The column classifier *)

Lemma combine_seq_nth A (l : list A) k j a :
  In (j, a) (combine (seq k (length l)) l) ->
  (k <= j)%nat /\ nth_error l (j - k) = Some a.
Proof.
  revert k. induction l as [|x l IH]; intros k H; simpl in H.
  - contradiction.
  - destruct H as [H|H].
    + inversion H; subst. rewrite Nat.sub_diag. split; [lia | reflexivity].
    + apply IH in H. destruct H as [Hk Hn]. split; [lia|].
      replace (j - k)%nat with (S (j - S k)) by lia. exact Hn.
Qed.

Lemma enumerate_nth A (l : list A) j a :
  In (j, a) (enumerate l) -> nth_error l j = Some a.
Proof.
  intros H. apply combine_seq_nth in H. destruct H as [_ H].
  rewrite Nat.sub_0_r in H. exact H.
Qed.

Lemma dict_set_In k v d c l :
  In (c, l) (dict_set k v d) -> (c, l) = (k, v) \/ In (c, l) d.
Proof.
  induction d as [|[k' v'] d IH]; simpl; intros H.
  - destruct H as [H|[]]. left; congruence.
  - destruct (pystr_eq_dec k k').
    + destruct H as [H|H]; [left; congruence | right; right; assumption].
    + destruct H as [H|H]; [right; left; assumption|].
      destruct (IH H); [left | right; right]; assumption.
Qed.

Lemma classify_column_label rt chat col s :
  classify_column rt chat col s = Returned (label_for rt chat col s).
Proof.
  unfold classify_column, label_for.
  destruct (chat (AskColumnType col s)); reflexivity.
Qed.

(** The invariant of the loop of the classifier: what holds of every label
    asked for holds of every entry of the dict. *)
Lemma analyze_loop_labels rt chat df (Q : pystr -> pystr -> Prop) :
  forall cols acc,
    (forall j col d, In (j, (col, d)) cols -> is_object d = true ->
       head 3 (dropna_series (column j df)) <> [] ->
       Q col (label_for rt chat col (head 3 (dropna_series (column j df))))) ->
    (forall c l, In (c, l) acc -> Q c l) ->
    exists m, analyze_loop rt chat df cols acc = Returned m /\
              forall c l, In (c, l) m -> Q c l.
Proof.
  induction cols as [|[j [col d]] cols IH]; intros acc Hcols Hacc;
    cbn [analyze_loop].
  - exists acc. split; [reflexivity | assumption].
  - assert (Hrest : forall j0 col0 d0, In (j0, (col0, d0)) cols ->
              is_object d0 = true ->
              head 3 (dropna_series (column j0 df)) <> [] ->
              Q col0 (label_for rt chat col0
                        (head 3 (dropna_series (column j0 df))))).
    { intros j0 col0 d0 Hin. apply Hcols. right; assumption. }
    destruct (is_object d) eqn:Hd; [|apply IH; assumption].
    destruct (head 3 (dropna_series (column j df))) as [|c0 s0] eqn:Hs.
    + apply IH; assumption.
    + rewrite classify_column_label. cbn [bind]. apply IH; [assumption|].
      intros c l Hin. apply dict_set_In in Hin. destruct Hin as [Hin|Hin].
      * inversion Hin; subst. rewrite <- Hs.
        apply (Hcols j col d); [left; reflexivity | assumption |].
        rewrite Hs. discriminate.
      * apply Hacc; assumption.
Qed.

(** C3 (as the code has it).  The classifier returns for every table and
    every behaviour of the service.  Each label it records belongs to a
    text column with a non-missing value and is [text] when the call
    raised, and otherwise the reply, stripped and lower-cased, whatever it
    says.  So the labels are [text] when the service is down, and are in
    the closed set when every reply is. *)
Theorem classifier_labels (rt : Runtime) (self : CSVCleaner)
        (df : DataFrame) :
  exists column_types,
    analyze_columns_with_llm rt self df = Returned column_types /\
    (forall col col_type, In (col, col_type) column_types ->
       exists chat j,
         groq_client self = Some chat /\
         nth_error (columns df) j = Some (col, DObject) /\
         head 3 (dropna_series (column j df)) <> [] /\
         col_type =
         label_for rt chat col (head 3 (dropna_series (column j df)))) /\
    (forall chat, groq_client self = Some chat ->
       (forall req, exists e, chat req = Raised e) ->
       forall col col_type,
         In (col, col_type) column_types -> col_type = lit "text") /\
    (forall chat, groq_client self = Some chat ->
       (forall req content, chat req = Returned content ->
          In (py_lower rt (py_strip rt content)) closed_labels) ->
       forall col col_type,
         In (col, col_type) column_types -> In col_type closed_labels).
Proof.
  unfold analyze_columns_with_llm.
  destruct (groq_client self) as [chat|] eqn:Hc.
  - destruct (analyze_loop_labels rt chat df
      (fun col col_type =>
         exists j, nth_error (columns df) j = Some (col, DObject) /\
           head 3 (dropna_series (column j df)) <> [] /\
           col_type =
           label_for rt chat col (head 3 (dropna_series (column j df))))
      (enumerate (columns df)) []) as [m [Hm HQ]].
    + intros j col d Hin Hd Hs. exists j.
      apply enumerate_nth in Hin. destruct d; try discriminate.
      repeat split; assumption.
    + intros c l [].
    + exists m. split; [assumption|]. split; [|split].
      * intros col col_type Hin. destruct (HQ _ _ Hin) as [j Hj].
        exists chat, j. split; [reflexivity | assumption].
      * intros chat' Hchat' Hdown col col_type Hin.
        inversion Hchat'; subst chat'.
        destruct (HQ _ _ Hin) as [j [_ [_ Hl]]]. subst col_type.
        unfold label_for.
        destruct (Hdown (AskColumnType col
                    (head 3 (dropna_series (column j df))))) as [e He].
        rewrite He. reflexivity.
      * intros chat' Hchat' Hok col col_type Hin.
        inversion Hchat'; subst chat'.
        destruct (HQ _ _ Hin) as [j [_ [_ Hl]]]. subst col_type.
        unfold label_for.
        destruct (chat (AskColumnType col
                    (head 3 (dropna_series (column j df))))) eqn:He.
        -- apply (Hok _ _ He).
        -- simpl. tauto.
  - exists []. split; [reflexivity|].
    split; [|split]; intros; try discriminate; contradiction.
Qed.

Lemma classifier_labels_witness :
  analyze_columns_with_llm Sample.plain_runtime
    (mkCleaner (Some (fun _ => Raised (lit "connection refused"))))
    (mkFrame [(lit "mail", DObject)] [[Sample.str "A@B.C"]])
  = Returned [(lit "mail", lit "text")].
Proof.
  destruct (classifier_labels Sample.plain_runtime
              (mkCleaner (Some (fun _ => Raised (lit "connection refused"))))
              (mkFrame [(lit "mail", DObject)] [[Sample.str "A@B.C"]]))
    as [m [Hm [_ [Hdown _]]]].
  rewrite Hm. f_equal.
  assert (Hin : forall col col_type, In (col, col_type) m ->
                col_type = lit "text").
  { apply (Hdown _ eq_refl). intros req. eexists; reflexivity. }
  clear Hdown. vm_compute in Hm. inversion Hm. reflexivity.
Defined.

Lemma label_outside_closed_set : ~ labels_always_closed.
Proof.
  intros H.
  destruct (H Sample.plain_runtime
              (mkCleaner (Some (fun _ => Returned (lit " Banana "))))
              (mkFrame [(lit "mail", DObject)] [[Sample.str "A@B.C"]]))
    as [m [Hm Hclosed]].
  vm_compute in Hm. inversion Hm; subst m.
  specialize (Hclosed (lit "mail") (lit "banana") (or_introl eq_refl)).
  vm_compute in Hclosed.
  repeat (destruct Hclosed as [Hclosed|Hclosed]; [discriminate|]).
  contradiction.
Qed.

(** ** The orchestrator: the safety gate and the partial-failure policy *)

Lemma detect_issues_returns rt df :
  exists issues, detect_issues rt df = Returned issues.
Proof.
  unfold detect_issues.
  destruct (collect_returns (check_missing df) (enumerate (columns df)))
    as [r Hr].
  - intros a _. apply check_missing_returns.
  - rewrite Hr. simpl. eexists; reflexivity.
Qed.

(** [clean_data] in terms of the state the [try] block leaves. *)
Lemma clean_data_enabled rt self df user_instructions basic_only run error :
  llm_enabled self basic_only = true ->
  enhance rt self (run0 rt df) user_instructions = Ended run error ->
  exists r,
    clean_data rt self df user_instructions basic_only = Returned r /\
    cleaned_data r = frame run /\
    operations_performed (report r) = operations run /\
    column_analysis (report r) = analysis run /\
    llm_error (report r) = error /\
    original_rows (report r) = len df /\
    final_rows (report r) = len (frame run) /\
    final_columns (report r) = ncols (frame run) /\
    data_quality_score_after (report r)
    = calculate_quality_score rt (frame run) /\
    rows_removed (report r)
    = (Z.of_nat (len df) - Z.of_nat (len (frame run)))%Z.
Proof.
  intros Hen Hrun. unfold clean_data.
  destruct (detect_issues_returns rt df) as [issues Hi]. rewrite Hi.
  cbn [bind]. rewrite Hen. unfold run0 in Hrun. rewrite Hrun.
  eexists. split; [reflexivity|]. cbn. repeat split.
Qed.

Lemma clean_data_restricted rt self df user_instructions basic_only :
  llm_enabled self basic_only = false ->
  exists r,
    clean_data rt self df user_instructions basic_only = Returned r /\
    cleaned_data r = basic_cleaning rt df /\
    operations_performed (report r) = basic_operations /\
    llm_error (report r) = None /\
    rows_removed (report r)
    = (Z.of_nat (len df) - Z.of_nat (len (basic_cleaning rt df)))%Z.
Proof.
  intros Hen. unfold clean_data.
  destruct (detect_issues_returns rt df) as [issues Hi]. rewrite Hi.
  cbn [bind]. rewrite Hen.
  eexists. split; [reflexivity|]. cbn. repeat split.
Qed.


Lemma gate_returns_frame rt (chat : client) df user_instructions content :
  chat (AskCode (len df) (labels df) user_instructions) = Returned content ->
  is_dangerous rt (py_strip rt content) = true ->
  apply_user_instructions rt (mkCleaner (Some chat)) df user_instructions
  = Returned df.
Proof.
  intros Hreply Hdanger. unfold apply_user_instructions. cbn [groq_client].
  rewrite Hreply, Hdanger. reflexivity.
Qed.

Lemma gate_run rt (chat : client) df user_instructions run1 content :
  user_instructions <> [] ->
  typed_cleaning rt (mkCleaner (Some chat)) (run0 rt df) = (run1, None) ->
  chat (AskCode (len (frame run1)) (labels (frame run1)) user_instructions)
  = Returned content ->
  is_dangerous rt (py_strip rt content) = true ->
  exists r,
    clean_data rt (mkCleaner (Some chat)) df user_instructions false
    = Returned r /\
    cleaned_data r = frame run1 /\
    llm_error (report r) = None /\
    operations_performed (report r)
    = operations run1 ++ [applied_line user_instructions].
Proof.
  intros Hne Htyped Hreply Hdanger.
  pose proof (gate_returns_frame rt chat (frame run1) user_instructions
                                 Hreply Hdanger) as Hgate.
  destruct (@clean_data_enabled rt (mkCleaner (Some chat)) df
              user_instructions false
              (mkRun (frame run1)
                     (operations run1 ++ [applied_line user_instructions])
                     (analysis run1)) None) as [r Hr].
  - reflexivity.
  - unfold enhance. rewrite Htyped. cbv iota beta.
    destruct user_instructions as [|c s]; [congruence|].
    cbn [instruction_step]. rewrite Hgate. reflexivity.
  - exists r. cbn [frame operations] in Hr. tauto.
Qed.

(** C1 (as the code has it).  When the snippet the service returns holds a
    deny-listed token, [apply_user_instructions] returns the frame it was
    given without executing anything, and [clean_data] returns the frame
    the column cleaners left, with no [llm_error]; the line 'Applied
    custom instructions' is appended all the same, as the last
    operation. *)
Theorem rejected_snippet_is_a_no_op (rt : Runtime) (chat : client)
        (df : DataFrame) (user_instructions : pystr) (run1 : Run)
        (content : pystr) :
  user_instructions <> [] ->
  typed_cleaning rt (mkCleaner (Some chat)) (run0 rt df) = (run1, None) ->
  chat (AskCode (len (frame run1)) (labels (frame run1)) user_instructions)
  = Returned content ->
  is_dangerous rt (py_strip rt content) = true ->
  apply_user_instructions rt (mkCleaner (Some chat)) (frame run1)
                          user_instructions = Returned (frame run1) /\
  exists r,
    clean_data rt (mkCleaner (Some chat)) df user_instructions false
    = Returned r /\
    cleaned_data r = frame run1 /\
    llm_error (report r) = None /\
    operations_performed (report r)
    = operations run1 ++ [applied_line user_instructions].
Proof.
  intros Hne Htyped Hreply Hdanger. split.
  - apply (gate_returns_frame rt chat _ _ Hreply Hdanger).
  - apply (gate_run rt chat df Hne Htyped Hreply Hdanger).
Qed.

Lemma rejected_snippet_is_a_no_op_witness :
  exists r,
    clean_data Sample.plain_runtime (mkCleaner (Some Sample.importing_chat))
               Sample.people (lit "drop everything") false = Returned r /\
    cleaned_data r = Sample.people /\
    llm_error (report r) = None /\
    operations_performed (report r)
    = basic_operations ++ [applied_line (lit "drop everything")].
Proof.
  destruct (@rejected_snippet_is_a_no_op Sample.plain_runtime
              Sample.importing_chat Sample.people (lit "drop everything")
              (mkRun Sample.people basic_operations
                     (Some [(lit "name", lit "text");
                            (lit "phone", lit "text")]))
              (lit "import os")) as [_ H].
  - discriminate.
  - reflexivity.
  - reflexivity.
  - reflexivity.
  - exact H.
Defined.

Lemma rejected_snippet_still_reported : ~ rejected_snippet_leaves_no_line.
Proof.
  intros H.
  destruct (H Sample.plain_runtime Sample.importing_chat Sample.people
              (lit "drop everything")
              (mkRun Sample.people basic_operations
                     (Some [(lit "name", lit "text");
                            (lit "phone", lit "text")]))
              (lit "import os")) as [r [Hr [_ [_ Hno]]]];
    try reflexivity; try discriminate.
  destruct (@gate_run Sample.plain_runtime Sample.importing_chat
              Sample.people (lit "drop everything")
              (mkRun Sample.people basic_operations
                     (Some [(lit "name", lit "text");
                            (lit "phone", lit "text")]))
              (lit "import os")) as [r' [Hr' [_ [_ Hops]]]];
    try reflexivity; try discriminate.
  rewrite Hr in Hr'. inversion Hr'; subst r'.
  apply Hno. rewrite Hops. apply in_or_app. right. left. reflexivity.
Qed.

Lemma assign_length j rs s : length (assign j rs s) = length rs.
Proof.
  revert s. induction rs as [|r rs IH]; intros [|c s]; simpl; auto.
Qed.

Lemma upd_label j (l : pystr) (d : dtype) cols d0 :
  nth_error cols j = Some (l, d0) ->
  map fst (upd j (l, d) cols) = map fst cols.
Proof.
  revert j. induction cols as [|[l' d'] cols IH]; intros [|j] H; simpl in *;
    try discriminate.
  - inversion H; subst. reflexivity.
  - f_equal. apply IH. assumption.
Qed.

Lemma set_column_len j d s df : len (set_column j d s df) = len df.
Proof. unfold len, set_column. simpl. apply assign_length. Qed.

Lemma set_column_labels j d s df :
  labels (set_column j d s df) = labels df.
Proof.
  unfold labels, set_column. simpl.
  destruct (nth_error (columns df) j) as [[l d0]|] eqn:E; [|reflexivity].
  apply (upd_label _ _ _ E).
Qed.

Lemma extends_refl run : extends run run.
Proof.
  repeat split. exists []. rewrite app_nil_r. reflexivity.
Qed.

Lemma extends_trans a b c : extends a b -> extends b c -> extends a c.
Proof.
  intros [H1 [H2 [m1 H3]]] [H4 [H5 [m2 H6]]]. repeat split.
  - congruence.
  - congruence.
  - exists (m1 ++ m2). rewrite H6, H3, app_assoc. reflexivity.
Qed.

Lemma clean_in_place_extends run col cleaner dtype_of line run' err :
  clean_in_place run col cleaner dtype_of line = (run', err) ->
  extends run run'.
Proof.
  unfold clean_in_place. intros H.
  destruct (index_of col (labels (frame run))) as [j|].
  - destruct (cleaner (column j (frame run))) as [s|e].
    + inversion H; subst. repeat split; simpl.
      * apply set_column_len.
      * apply set_column_labels.
      * exists [line]. reflexivity.
    + inversion H; subst. apply extends_refl.
  - inversion H; subst. apply extends_refl.
Qed.

Lemma clean_typed_column_extends rt run item run' err :
  clean_typed_column rt run item = (run', err) -> extends run run'.
Proof.
  destruct item as [col col_type]. unfold clean_typed_column.
  repeat match goal with
         | |- context [pystr_eq_dec ?a ?b] => destruct (pystr_eq_dec a b)
         end;
    try apply clean_in_place_extends.
  intros H; inversion H; subst. apply extends_refl.
Qed.

Lemma dispatch_extends rt items : forall run run' err,
  dispatch rt run items = (run', err) -> extends run run'.
Proof.
  induction items as [|item items IH]; intros run run' err H; simpl in H.
  - inversion H; subst. apply extends_refl.
  - destruct (clean_typed_column rt run item) as [run1 [e|]] eqn:E.
    + inversion H; subst. apply (clean_typed_column_extends _ _ _ E).
    + apply (extends_trans (clean_typed_column_extends _ _ _ E)).
      apply (IH _ _ _ H).
Qed.

Lemma typed_cleaning_extends rt self run run' err :
  typed_cleaning rt self run = (run', err) -> extends run run'.
Proof.
  unfold typed_cleaning. intros H.
  destruct (analyze_columns_with_llm rt self (frame run)) as [types|e].
  - apply dispatch_extends in H. exact H.
  - inversion H; subst. apply extends_refl.
Qed.







(** A snippet that leaves the interpreter passes the deny-list and both
    handlers. *)
Lemma executed_exit_aborts_clean_data : ~ failure_never_aborts.
Proof.
  intros H.
  destruct (H Sample.exiting_runtime (mkCleaner (Some Sample.exiting_chat))
              Sample.people (lit "stop") false (lit "SystemExit") eq_refl)
    as [r [Hr _]].
  - right.
    exists (mkRun Sample.people basic_operations
                  (Some [(lit "name", lit "text"); (lit "phone", lit "text")])).
    split; [reflexivity|]. split; [discriminate|]. right. reflexivity.
  - vm_compute in Hr. discriminate Hr.
Qed.

(** ** Numeric coercion *)

Lemma upd_length A j (x : A) l : length (upd j x l) = length l.
Proof.
  revert j. induction l as [|h t IH]; intros [|j]; simpl; auto.
Qed.

Lemma nth_upd_other A j k (x d : A) l :
  j <> k -> nth j (upd k x l) d = nth j l d.
Proof.
  revert j k. induction l as [|h t IH]; intros [|j] [|k] H; simpl; auto;
    try congruence; try (apply IH; congruence).
Qed.

Lemma nth_upd_same A k (x d : A) l :
  (k < length l)%nat -> nth k (upd k x l) d = x.
Proof.
  revert k. induction l as [|h t IH]; intros [|k] H; simpl in *;
    try lia; auto.
  apply IH. lia.
Qed.

Lemma nth_error_upd_other A j k (x : A) l :
  j <> k -> nth_error (upd k x l) j = nth_error l j.
Proof.
  revert j k. induction l as [|h t IH]; intros [|j] [|k] H; simpl; auto;
    try congruence; try (apply IH; congruence).
Qed.

Lemma nth_error_upd_same A k (x : A) l :
  (k < length l)%nat -> nth_error (upd k x l) k = Some x.
Proof.
  revert k. induction l as [|h t IH]; intros [|k] H; simpl in *;
    try lia; auto.
  apply IH. lia.
Qed.

Lemma assign_widths j rs s :
  map (@length cell) (assign j rs s) = map (@length cell) rs.
Proof.
  revert s. induction rs as [|r rs IH]; intros [|c s]; simpl; auto.
  rewrite upd_length, IH. reflexivity.
Qed.

Lemma assign_column_other j k rs s :
  j <> k ->
  map (fun r => nth j r NaN) (assign k rs s) = map (fun r => nth j r NaN) rs.
Proof.
  intros H. revert s. induction rs as [|r rs IH]; intros [|c s]; simpl; auto.
  rewrite nth_upd_other by assumption. rewrite IH. reflexivity.
Qed.

Lemma assign_column_same k rs s :
  length s = length rs ->
  Forall (fun r => (k < length r)%nat) rs ->
  map (fun r => nth k r NaN) (assign k rs s) = s.
Proof.
  revert s. induction rs as [|r rs IH]; intros [|c s] Hl Hw; simpl in *;
    try discriminate; auto.
  inversion Hw; subst.
  rewrite nth_upd_same by assumption. f_equal. apply IH; [lia | assumption].
Qed.

Lemma convert_column_eq rt df k :
  convert_column rt df k =
  if coerces rt df k
  then set_column k DNumeric (to_numeric rt (column k df)) df
  else df.
Proof.
  unfold convert_column, coerces.
  destruct (dtype_at k df) as [[| |]|]; reflexivity.
Qed.

Lemma dtype_at_lt j df d : dtype_at j df = Some d -> (j < ncols df)%nat.
Proof.
  unfold dtype_at, ncols. intros H.
  destruct (nth_error (columns df) j) eqn:E; [|discriminate].
  apply nth_error_Some. congruence.
Qed.

Lemma set_column_ncols j d s df : ncols (set_column j d s df) = ncols df.
Proof.
  unfold ncols, set_column. simpl.
  destruct (nth_error (columns df) j) as [[l d0]|]; [|reflexivity].
  apply upd_length.
Qed.

Lemma set_column_rect j d s df : rect df -> rect (set_column j d s df).
Proof.
  unfold rect. rewrite set_column_ncols. intros H.
  apply Forall_forall. intros r Hr.
  assert (Hw : In (length r) (map (@length cell) (rows (set_column j d s df)))).
  { apply in_map. assumption. }
  simpl in Hw. rewrite assign_widths in Hw.
  apply in_map_iff in Hw. destruct Hw as [r0 [Hl Hr0]].
  rewrite <- Hl. rewrite Forall_forall in H. apply H. assumption.
Qed.

Lemma set_column_other j k d s df :
  j <> k ->
  column j (set_column k d s df) = column j df /\
  dtype_at j (set_column k d s df) = dtype_at j df.
Proof.
  intros H. split.
  - unfold column, set_column. simpl. apply assign_column_other. assumption.
  - unfold dtype_at, set_column. simpl.
    destruct (nth_error (columns df) k) as [[l d0]|]; [|reflexivity].
    rewrite nth_error_upd_other by assumption. reflexivity.
Qed.

Lemma set_column_same k d s df :
  rect df -> (k < ncols df)%nat -> length s = len df ->
  column k (set_column k d s df) = s /\
  dtype_at k (set_column k d s df) = Some d.
Proof.
  intros Hr Hk Hs. split.
  - unfold column, set_column. simpl. apply assign_column_same.
    + exact Hs.
    + unfold rect in Hr. eapply Forall_impl; [|exact Hr].
      simpl. intros r Hlen. lia.
  - unfold dtype_at, set_column. simpl.
    destruct (nth_error (columns df) k) as [[l d0]|] eqn:E.
    + rewrite nth_error_upd_same by exact Hk. reflexivity.
    + apply nth_error_None in E. unfold ncols in Hk. lia.
Qed.

Lemma to_numeric_length rt s : length (to_numeric rt s) = length s.
Proof. unfold to_numeric. apply length_map. Qed.

Lemma column_length j df : length (column j df) = len df.
Proof. unfold column, len. apply length_map. Qed.

(** What a frame keeps through the coercion of some of its columns. *)
Lemma convert_column_shape rt df k :
  rect df ->
  rect (convert_column rt df k) /\
  len (convert_column rt df k) = len df /\
  ncols (convert_column rt df k) = ncols df /\
  labels (convert_column rt df k) = labels df.
Proof.
  intros Hr. rewrite convert_column_eq.
  destruct (coerces rt df k); [|tauto].
  repeat split.
  - apply set_column_rect; assumption.
  - apply set_column_len.
  - apply set_column_ncols.
  - apply set_column_labels.
Qed.

Lemma coerces_ext rt df df' j :
  column j df' = column j df -> dtype_at j df' = dtype_at j df ->
  len df' = len df -> coerces rt df' j = coerces rt df j.
Proof.
  intros Hc Hd Hl. unfold coerces. rewrite Hc, Hd, Hl. reflexivity.
Qed.

Lemma convert_column_other rt df j k :
  j <> k ->
  column j (convert_column rt df k) = column j df /\
  dtype_at j (convert_column rt df k) = dtype_at j df.
Proof.
  intros H. rewrite convert_column_eq.
  destruct (coerces rt df k); [|tauto].
  apply set_column_other. assumption.
Qed.

Lemma convert_column_same rt df k :
  rect df ->
  column k (convert_column rt df k)
  = (if coerces rt df k then to_numeric rt (column k df) else column k df) /\
  dtype_at k (convert_column rt df k)
  = (if coerces rt df k then Some DNumeric else dtype_at k df).
Proof.
  intros Hr. rewrite convert_column_eq.
  destruct (coerces rt df k) eqn:E; [|tauto].
  apply set_column_same.
  - assumption.
  - unfold coerces in E.
    destruct (dtype_at k df) as [d|] eqn:Ed; [|discriminate].
    apply (dtype_at_lt _ _ Ed).
  - rewrite to_numeric_length. apply column_length.
Qed.

(** The loop of [basic_type_conversion] over a list of distinct
    positions: each column listed is decided by its own test on the frame
    the loop started from, and the others are left alone. *)
Lemma convert_columns_spec rt : forall ks df,
  rect df -> NoDup ks ->
  let out := fold_left (convert_column rt) ks df in
  rect out /\ len out = len df /\ ncols out = ncols df /\
  labels out = labels df /\
  forall j,
    (In j ks ->
     column j out
     = (if coerces rt df j then to_numeric rt (column j df)
        else column j df) /\
     dtype_at j out
     = (if coerces rt df j then Some DNumeric else dtype_at j df)) /\
    (~ In j ks ->
     column j out = column j df /\ dtype_at j out = dtype_at j df).
Proof.
  induction ks as [|k ks IH]; intros df Hr Hnd; simpl.
  - do 4 (split; [tauto|]). intros j. split; [intros [] | tauto].
  - inversion Hnd as [|k' ks' Hk Hnd']; subst.
    destruct (convert_column_shape rt k Hr) as [Hr1 [Hl1 [Hn1 Hlab1]]].
    destruct (IH (convert_column rt df k) Hr1 Hnd')
      as [Hro [Hlo [Hno [Hlabo Hcols]]]].
    split; [exact Hro|]. do 3 (split; [congruence|]).
    intros j. split.
    + intros [Hj|Hj].
      * subst j. destruct (Hcols k) as [_ Hout].
        destruct (Hout Hk) as [Hc Hd]. rewrite Hc, Hd.
        apply (convert_column_same rt k Hr).
      * assert (Hjk : j <> k) by (intros ->; contradiction).
        destruct (Hcols j) as [Hin _]. destruct (Hin Hj) as [Hc Hd].
        destruct (convert_column_other rt df Hjk) as [Hc1 Hd1].
        rewrite (@coerces_ext rt df _ j Hc1 Hd1 Hl1) in Hc, Hd.
        rewrite Hc, Hd, Hc1, Hd1. tauto.
    + intros Hj.
      assert (Hjk : j <> k) by (intros ->; apply Hj; left; reflexivity).
      assert (Hjks : ~ In j ks) by (intros Hin; apply Hj; right; assumption).
      destruct (Hcols j) as [_ Hout]. destruct (Hout Hjks) as [Hc Hd].
      destruct (convert_column_other rt df Hjk) as [Hc1 Hd1].
      rewrite Hc, Hd. tauto.
Qed.

Lemma coerces_out_of_range rt df j :
  (ncols df <= j)%nat -> coerces rt df j = false.
Proof.
  intros H. unfold coerces, dtype_at.
  assert (E : nth_error (columns df) j = None)
    by (apply nth_error_None; exact H).
  rewrite E. reflexivity.
Qed.

Lemma basic_type_conversion_spec rt df :
  rect df ->
  let out := basic_type_conversion rt df in
  rect out /\ len out = len df /\ ncols out = ncols df /\
  labels out = labels df /\
  forall j,
    column j out
    = (if coerces rt df j then to_numeric rt (column j df)
       else column j df) /\
    dtype_at j out
    = (if coerces rt df j then Some DNumeric else dtype_at j df).
Proof.
  intros Hr. unfold basic_type_conversion.
  destruct (@convert_columns_spec rt (seq 0 (ncols df)) df Hr
              (seq_NoDup _ _))
    as [Hro [Hlo [Hno [Hlabo Hcols]]]].
  do 4 (split; [assumption|]).
  intros j. destruct (Hcols j) as [Hin Hout].
  destruct (Nat.lt_ge_cases j (ncols df)) as [Hlt|Hge].
  - apply Hin. apply in_seq. lia.
  - rewrite (coerces_out_of_range rt df Hge).
    apply Hout. rewrite in_seq. lia.
Qed.

(** The float literals are the nearest binary64 numbers: they are within
    half a unit in the last place, 2^-54, of 7/10 and 8/10. *)
Example lit_0_7_nearest :
  Qabs (F64.to_Q F64.lit_0_7 - (7 # 10)) <= Qpower 2 (-54).
Proof. vm_compute. discriminate. Qed.

Example lit_0_8_nearest :
  Qabs (F64.to_Q F64.lit_0_8 - (8 # 10)) <= Qpower 2 (-54).
Proof. vm_compute. discriminate. Qed.

(** On tables of fewer than 90 rows the float test is the integer one:
    strictly more than seven tenths of the rows. *)
Lemma count_exceeds_below_90 n count :
  (n < 90)%nat -> (count <= n)%nat ->
  F64.count_exceeds count n F64.lit_0_7 = (7 * n <? 10 * count).
Proof.
  intros Hn Hc.
  assert (Hall :
    forallb (fun n =>
      forallb (fun c =>
        Bool.eqb (F64.count_exceeds c n F64.lit_0_7) (7 * n <? 10 * c))
        (seq 0 (S n))) (seq 0 90) = true) by (vm_compute; reflexivity).
  rewrite forallb_forall in Hall.
  specialize (Hall n). rewrite in_seq in Hall.
  assert (Hn' : (0 <= n < 0 + 90)%nat) by lia.
  specialize (Hall Hn'). rewrite forallb_forall in Hall.
  specialize (Hall count). rewrite in_seq in Hall.
  assert (Hc' : (0 <= count < 0 + S n)%nat) by lia.
  apply Bool.eqb_prop. exact (Hall Hc').
Qed.

(** Seven of ten is not enough; 63 of 90 is, because the float product
    90 * 0.7 is rounded below 63. *)
Example seven_of_ten : F64.count_exceeds 7 10 F64.lit_0_7 = false.
Proof. vm_compute. reflexivity. Qed.

Example sixty_three_of_ninety : F64.count_exceeds 63 90 F64.lit_0_7 = true.
Proof. vm_compute. reflexivity. Qed.

(** C2 (as the code has it).  A text column is replaced by its coerced
    values, and becomes numeric, exactly when the number of its cells that
    convert is greater than the float product of the number of rows of
    the table by 0.7; the missing cells count among the rows.  Otherwise it
    is left as it was.  A string that does not convert becomes missing.
    Below 90 rows the test is: strictly more than 70% of the rows. *)
Theorem coercion_threshold (rt : Runtime) (df : DataFrame) (j : nat) :
  wf_frame df ->
  dtype_at j df = Some DObject ->
  let converted := to_numeric rt (column j df) in
  let out := basic_type_conversion rt df in
  (F64.count_exceeds (count_notna converted) (len df) F64.lit_0_7 = true ->
   column j out = converted /\ dtype_at j out = Some DNumeric) /\
  (F64.count_exceeds (count_notna converted) (len df) F64.lit_0_7 = false ->
   column j out = column j df /\ dtype_at j out = Some DObject) /\
  (forall s, pd_parse rt s = None -> to_numeric_cell rt (Str s) = NaN) /\
  ((len df < 90)%nat ->
   F64.count_exceeds (count_notna converted) (len df) F64.lit_0_7
   = (7 * len df <? 10 * count_notna converted)).
Proof.
  intros [_ Hr] Hd converted out.
  destruct (basic_type_conversion_spec rt Hr) as [_ [_ [_ [_ Hcols]]]].
  destruct (Hcols j) as [Hc Hdt].
  assert (Hco : coerces rt df j
                = F64.count_exceeds (count_notna converted) (len df)
                                    F64.lit_0_7).
  { unfold coerces. rewrite Hd. reflexivity. }
  fold out in Hc, Hdt. rewrite Hco in Hc, Hdt.
  split; [|split; [|split]].
  - intros E. rewrite E in Hc, Hdt. tauto.
  - intros E. rewrite E in Hc, Hdt. rewrite <- Hd. tauto.
  - intros s Hs. simpl. rewrite Hs. reflexivity.
  - intros Hn. apply count_exceeds_below_90; [assumption|].
    unfold count_notna, converted.
    etransitivity; [apply filter_length_le|].
    rewrite to_numeric_length, column_length. lia.
Qed.

Lemma sample_gaps_wf : wf_frame Sample.gaps.
Proof.
  split.
  - unfold labels. simpl.
    repeat constructor; simpl; intuition discriminate.
  - repeat constructor.
Qed.

Lemma coercion_threshold_witness :
  column 0 (basic_type_conversion Sample.plain_runtime Sample.gaps)
  = column 0 Sample.gaps.
Proof.
  destruct (@coercion_threshold Sample.plain_runtime Sample.gaps 0
              sample_gaps_wf eq_refl) as [_ [H _]].
  apply H. vm_compute. reflexivity.
Defined.

Lemma coercion_counts_missing_rows : ~ coercion_by_share_of_present.
Proof.
  intros H.
  destruct (H Sample.plain_runtime Sample.gaps 0%nat sample_gaps_wf eq_refl)
    as [Hyes _].
  assert (Hshare : converts_70_percent_of_present Sample.plain_runtime
                     (column 0 Sample.gaps)).
  { unfold converts_70_percent_of_present. vm_compute.
    repeat constructor. }
  specialize (Hyes Hshare). vm_compute in Hyes. discriminate Hyes.
Qed.

(** ** Duplicate rows and a second pass of the cleaning *)

Lemma filter_idem A (f : A -> bool) l : filter f (filter f l) = filter f l.
Proof.
  induction l as [|a l IH]; simpl; [reflexivity|].
  destruct (f a) eqn:E; simpl; [rewrite E, IH|]; auto.
Qed.

Lemma filter_all A (f : A -> bool) l :
  (forall a, In a l -> f a = true) -> filter f l = l.
Proof.
  induction l as [|a l IH]; intros H; simpl; [reflexivity|].
  rewrite (H a (or_introl eq_refl)). f_equal.
  apply IH. intros b Hb. apply H. right; assumption.
Qed.

Lemma select_In rs keep r : In r (select rs keep) -> In r rs.
Proof.
  revert keep. induction rs as [|x rs IH]; intros [|k keep] H; simpl in *;
    try contradiction.
  destruct k.
  - destruct H as [H|H]; [left; assumption | right; eapply IH; eassumption].
  - right. eapply IH; eassumption.
Qed.

(** The rows [drop_duplicates] keeps, given the rows seen before. *)
Lemma kept_rows_have_no_duplicate rs : forall seen,
  let kept := select rs (map negb (duplicated_from seen rs)) in
  duplicated_from seen kept = map (fun _ => false) kept.
Proof.
  induction rs as [|r rs IH]; intros seen; simpl; [reflexivity|].
  destruct (row_mem r seen) eqn:E; simpl.
  - apply IH.
  - rewrite E. f_equal. apply IH.
Qed.

Lemma select_all rs :
  select rs (map negb (map (fun _ : row => false) rs)) = rs.
Proof.
  induction rs as [|r rs IH]; simpl; [reflexivity|]. f_equal. assumption.
Qed.

Lemma remove_empty_rows_idem df :
  remove_empty_rows (remove_empty_rows df) = remove_empty_rows df.
Proof.
  unfold remove_empty_rows. simpl. rewrite filter_idem. reflexivity.
Qed.

Lemma remove_duplicates_eq df :
  remove_duplicates df
  = if empty df then df else mkFrame (columns df) (kept_rows (rows df)).
Proof.
  unfold remove_duplicates, duplicated, kept_rows.
  destruct (empty df); reflexivity.
Qed.

Lemma remove_duplicates_columns df :
  columns (remove_duplicates df) = columns df.
Proof. rewrite remove_duplicates_eq. destruct (empty df); reflexivity. Qed.

Lemma remove_duplicates_rows_In df r :
  In r (rows (remove_duplicates df)) -> In r (rows df).
Proof.
  rewrite remove_duplicates_eq. destruct (empty df); [auto|].
  simpl. apply select_In.
Qed.

(** The first row is never marked. *)
Lemma kept_rows_nil rs : kept_rows rs = [] -> rs = [].
Proof. destruct rs as [|r rs]; [reflexivity | discriminate]. Qed.

Lemma empty_mkFrame cols rs :
  empty (mkFrame cols rs)
  = (match rs with [] => true | _ => false end)
    || (match cols with [] => true | _ => false end).
Proof. unfold empty, len, ncols. simpl. destruct rs, cols; reflexivity. Qed.

Lemma remove_duplicates_empty df :
  empty (remove_duplicates df) = empty df.
Proof.
  rewrite remove_duplicates_eq. destruct (empty df) eqn:E; [exact E|].
  destruct df as [cols rs]. rewrite empty_mkFrame in *. simpl.
  destruct rs as [|r rs]; [discriminate E|]. exact E.
Qed.

Lemma remove_duplicates_idem df :
  remove_duplicates (remove_duplicates df) = remove_duplicates df.
Proof.
  rewrite (remove_duplicates_eq (remove_duplicates df)).
  rewrite remove_duplicates_empty.
  destruct (empty df) eqn:E; [reflexivity|].
  rewrite remove_duplicates_eq, E. simpl. f_equal.
  unfold kept_rows.
  rewrite (kept_rows_have_no_duplicate (rows df) []).
  apply select_all.
Qed.

(** No row that [remove_duplicates] keeps after [remove_empty_rows] is
    empty. *)
Lemma remove_empty_rows_after_duplicates df :
  remove_empty_rows (remove_duplicates (remove_empty_rows df))
  = remove_duplicates (remove_empty_rows df).
Proof.
  set (d := remove_duplicates (remove_empty_rows df)).
  assert (H : filter (fun r => negb (all_missing r)) (rows d) = rows d).
  { apply filter_all. intros r Hr.
    apply remove_duplicates_rows_In in Hr. simpl in Hr.
    apply filter_In in Hr. tauto. }
  unfold remove_empty_rows at 1. rewrite H. destruct d; reflexivity.
Qed.

Lemma rect_subset cols rs rs' :
  rect (mkFrame cols rs) -> (forall r, In r rs' -> In r rs) ->
  rect (mkFrame cols rs').
Proof.
  unfold rect, ncols. simpl. intros H Hin.
  rewrite Forall_forall in *. intros r Hr. apply H. apply Hin. assumption.
Qed.

Lemma remove_empty_rows_rect df : rect df -> rect (remove_empty_rows df).
Proof.
  destruct df as [cols rs]. unfold remove_empty_rows. simpl. intros H.
  apply (@rect_subset cols rs _ H). intros r Hr.
  apply filter_In in Hr. tauto.
Qed.

Lemma remove_duplicates_rect df : rect df -> rect (remove_duplicates df).
Proof.
  rewrite remove_duplicates_eq. destruct (empty df); [auto|].
  destruct df as [cols rs]. simpl. intros H.
  apply (@rect_subset cols rs _ H). intros r Hr.
  apply (@select_In _ _ _ Hr).
Qed.

Lemma convert_columns_id rt ks : forall df,
  (forall j, In j ks -> coerces rt df j = false) ->
  fold_left (convert_column rt) ks df = df.
Proof.
  induction ks as [|k ks IH]; intros df H; simpl; [reflexivity|].
  rewrite convert_column_eq. rewrite (H k (or_introl eq_refl)).
  apply IH. intros j Hj. apply H. right; assumption.
Qed.

(** A second pass of the coercion finds the columns it converted numeric,
    and the others as they were. *)
Lemma basic_type_conversion_idem rt df :
  rect df ->
  basic_type_conversion rt (basic_type_conversion rt df)
  = basic_type_conversion rt df.
Proof.
  intros Hr.
  destruct (basic_type_conversion_spec rt Hr) as [_ [Hl [_ [_ Hcols]]]].
  unfold basic_type_conversion at 1. apply convert_columns_id.
  intros j _. destruct (Hcols j) as [Hc Hd].
  destruct (coerces rt df j) eqn:E.
  - unfold coerces. rewrite Hd. reflexivity.
  - rewrite <- E. apply coerces_ext; assumption.
Qed.

Lemma basic_cleaning_rect rt df : rect df -> rect (basic_cleaning rt df).
Proof.
  intros Hr. unfold basic_cleaning.
  apply basic_type_conversion_spec.
  apply remove_duplicates_rect, remove_empty_rows_rect. assumption.
Qed.

Lemma row_mem_In r seen : row_mem r seen = true <-> In r seen.
Proof.
  unfold row_mem. destruct (in_dec row_eq_dec r seen) as [Hin|Hn].
  - tauto.
  - split; [discriminate | contradiction].
Qed.

Lemma row_mem_not_In r seen : row_mem r seen = false <-> ~ In r seen.
Proof.
  rewrite <- row_mem_In. destruct (row_mem r seen).
  - split; [discriminate | intros H; exfalso; apply H; reflexivity].
  - split; [discriminate | reflexivity].
Qed.

(** What [drop_duplicates] keeps, given the rows seen before: the rows not
    seen, once each; what it drops is what [duplicated] marks. *)
Lemma kept_rows_spec rs : forall seen,
  let kept := select rs (map negb (duplicated_from seen rs)) in
  NoDup kept /\
  (forall r, In r kept <-> In r rs /\ ~ In r seen) /\
  (length kept + count_true (duplicated_from seen rs) = length rs)%nat.
Proof.
  induction rs as [|r rs IH]; intros seen; simpl.
  - split; [constructor|]. split; [tauto | reflexivity].
  - destruct (row_mem r seen) eqn:E; simpl.
    + destruct (IH seen) as [Hnd [Hin Hcount]].
      apply row_mem_In in E.
      split; [exact Hnd|]. split.
      * intros x. rewrite Hin. split.
        -- tauto.
        -- intros [[Hx|Hx] Hs]; [subst; contradiction | tauto].
      * unfold count_true in *. simpl. lia.
    + destruct (IH (r :: seen)) as [Hnd [Hin Hcount]].
      apply row_mem_not_In in E.
      split.
      * constructor; [|exact Hnd]. rewrite Hin. simpl. tauto.
      * split.
        -- intros x. simpl. rewrite Hin. simpl.
           destruct (row_eq_dec r x) as [->|Hne]; [tauto|].
           split; [tauto|]. intros [[Hx|Hx] Hs]; [contradiction|].
           right. split; [assumption|]. intros [H'|H']; contradiction.
        -- unfold count_true in *. simpl. lia.
Qed.

(** The rows [remove_duplicates] removes are the rows [duplicated]
    marks. *)
Lemma remove_duplicates_count df :
  (len (remove_duplicates df) + count_true (duplicated df) = len df)%nat.
Proof.
  rewrite remove_duplicates_eq. unfold duplicated.
  destruct (empty df); [unfold count_true; simpl; lia|].
  destruct (kept_rows_spec (rows df) []) as [_ [_ H]]. exact H.
Qed.

Lemma remove_empty_rows_len df : (len (remove_empty_rows df) <= len df)%nat.
Proof. unfold len, remove_empty_rows. simpl. apply filter_length_le. Qed.

Lemma remove_duplicates_len df : (len (remove_duplicates df) <= len df)%nat.
Proof.
  pose proof (remove_duplicates_count df). lia.
Qed.

Lemma filter_drops A (f : A -> bool) l :
  (exists a, In a l /\ f a = false) ->
  (length (filter f l) < length l)%nat.
Proof.
  induction l as [|x l IH]; intros [a [Hin Hf]]; [destruct Hin|].
  simpl. destruct Hin as [->|Hin].
  - rewrite Hf. pose proof (filter_length_le f l). lia.
  - assert (length (filter f l) < length l)%nat by (apply IH; eauto).
    destruct (f x); simpl; lia.
Qed.

(** After the two row cleaners no two rows of a rectangular table are
    equal: a table without columns has lost all its rows. *)
Lemma row_cleaners_NoDup df :
  rect df -> NoDup (rows (remove_duplicates (remove_empty_rows df))).
Proof.
  intros Hr. rewrite remove_duplicates_eq.
  destruct (empty (remove_empty_rows df)) eqn:E.
  - replace (rows (remove_empty_rows df)) with (@nil row); [constructor|].
    unfold empty in E. apply orb_true_iff in E. destruct E as [E|E].
    + apply Nat.eqb_eq in E. unfold len in E.
      apply length_zero_iff_nil in E. congruence.
    + apply Nat.eqb_eq in E. change (ncols df = 0%nat) in E.
      unfold remove_empty_rows. simpl.
      unfold rect in Hr. rewrite E in Hr.
      induction (rows df) as [|r rs IH]; [reflexivity|].
      inversion Hr as [|? ? Hlen Hrest]; subst. simpl.
      apply length_zero_iff_nil in Hlen. subst r. simpl.
      apply IH. exact Hrest.
  - simpl. apply (kept_rows_spec (rows (remove_empty_rows df)) []).
Qed.

(** C7 (as the code has it).  Each of the three cleaners, run twice, does
    what it does once, and so do the two row cleaners together.  The
    composed cleaning run on its own output changes nothing when that
    output has no empty and no duplicate row, as when the first pass
    coerced no column.  The coercion of a first pass can leave such rows:
    a second pass keeps the rows of that output that are not empty, one of
    each, and so returns fewer rows than the first whenever that output
    has an empty row or two equal rows. *)
Theorem second_pass_changes_nothing (rt : Runtime) (df : DataFrame) :
  wf_frame df ->
  let once := basic_cleaning rt df in
  let kept := remove_duplicates (remove_empty_rows once) in
  remove_empty_rows (remove_empty_rows df) = remove_empty_rows df /\
  remove_duplicates (remove_duplicates df) = remove_duplicates df /\
  basic_type_conversion rt (basic_type_conversion rt df)
  = basic_type_conversion rt df /\
  remove_duplicates
    (remove_empty_rows (remove_duplicates (remove_empty_rows df)))
  = remove_duplicates (remove_empty_rows df) /\
  (remove_empty_rows once = once -> remove_duplicates once = once ->
   basic_cleaning rt once = once) /\
  (basic_type_conversion rt (remove_duplicates (remove_empty_rows df))
   = remove_duplicates (remove_empty_rows df) ->
   basic_cleaning rt once = once) /\
  len (basic_cleaning rt once) = len kept /\
  NoDup (rows kept) /\
  (forall r, In r (rows kept) -> In r (rows once) /\ all_missing r = false) /\
  ((exists r, In r (rows once) /\ all_missing r = true) \/
   ~ NoDup (rows once) ->
   (len (basic_cleaning rt once) < len once)%nat).
Proof.
  intros [_ Hr] once kept.
  assert (Hrows : rect (remove_duplicates (remove_empty_rows df)))
    by (apply remove_duplicates_rect, remove_empty_rows_rect; assumption).
  assert (Honce : rect once) by (apply basic_cleaning_rect; exact Hr).
  assert (Hkept : rect kept)
    by (apply remove_duplicates_rect, remove_empty_rows_rect; exact Honce).
  assert (Hlen : len (basic_cleaning rt once) = len kept).
  { unfold basic_cleaning at 1. fold kept.
    destruct (basic_type_conversion_spec rt Hkept) as [_ [Hl _]].
    exact Hl. }
  assert (Hnd : NoDup (rows kept)) by (apply row_cleaners_NoDup; exact Honce).
  assert (Hin : forall r, In r (rows kept) ->
                          In r (rows once) /\ all_missing r = false).
  { intros r H. apply remove_duplicates_rows_In in H.
    unfold remove_empty_rows in H. simpl in H.
    apply filter_In in H. destruct H as [H1 H2].
    apply negb_true_iff in H2. tauto. }
  split; [apply remove_empty_rows_idem|].
  split; [apply remove_duplicates_idem|].
  split; [apply basic_type_conversion_idem; assumption|].
  split; [rewrite remove_empty_rows_after_duplicates;
          apply remove_duplicates_idem|].
  split; [|split; [|split; [exact Hlen|split; [exact Hnd|split;
                                                [exact Hin|]]]]].
  - intros He Hd. unfold basic_cleaning at 1. rewrite He, Hd.
    unfold once, basic_cleaning.
    apply basic_type_conversion_idem. assumption.
  - intros Hid. unfold once, basic_cleaning. rewrite Hid.
    rewrite remove_empty_rows_after_duplicates.
    rewrite remove_duplicates_idem. exact Hid.
  - intros Hbad. rewrite Hlen.
    pose proof (remove_duplicates_len (remove_empty_rows once)) as Hle1.
    fold kept in Hle1.
    pose proof (remove_empty_rows_len once) as Hle2.
    destruct Hbad as [[r [Hr1 Hr2]]|Hdup].
    + assert (len (remove_empty_rows once) < len once)%nat; [|lia].
      unfold len, remove_empty_rows. simpl. apply filter_drops.
      exists r. rewrite Hr2. tauto.
    + destruct (Nat.lt_ge_cases (len kept) (len once)) as [Hlt|Hge];
        [exact Hlt|].
      exfalso. apply Hdup.
      apply (@NoDup_incl_NoDup _ (rows kept) (rows once) Hnd Hge).
      intros r H. apply (Hin r H).
Qed.

Lemma sample_words_wf : wf_frame Sample.words.
Proof.
  split.
  - unfold labels. simpl. repeat constructor; simpl; intuition.
  - repeat constructor.
Qed.

Lemma second_pass_changes_nothing_witness :
  basic_cleaning Sample.plain_runtime
    (basic_cleaning Sample.plain_runtime Sample.words)
  = basic_cleaning Sample.plain_runtime Sample.words.
Proof.
  destruct (@second_pass_changes_nothing Sample.plain_runtime Sample.words
              sample_words_wf) as [_ [_ [_ [_ H]]]].
  apply H. vm_compute. reflexivity.
Defined.

Lemma sample_mostly_numbers_wf : wf_frame Sample.mostly_numbers.
Proof.
  split.
  - unfold labels. simpl. repeat constructor; simpl; intuition.
  - repeat constructor.
Qed.

Lemma second_pass_drops_a_row : ~ cleaning_idempotent.
Proof.
  intros H.
  specialize (H Sample.plain_runtime Sample.mostly_numbers
                sample_mostly_numbers_wf).
  apply (f_equal len) in H. vm_compute in H. discriminate H.
Qed.

Lemma row_mem_singleton A B : A <> B -> row_mem B [A] = false.
Proof.
  intros H. unfold row_mem.
  destruct (in_dec row_eq_dec B [A]) as [Hin|]; [|reflexivity].
  destruct Hin as [Hin|[]]. congruence.
Qed.

Lemma row_mem_head A seen : row_mem A (A :: seen) = true.
Proof.
  unfold row_mem.
  destruct (in_dec row_eq_dec A (A :: seen)) as [|Hn]; [reflexivity|].
  exfalso. apply Hn. left. reflexivity.
Qed.

(** The two row cleaners on rows A, A, B. *)
Lemma row_cleaners_on_A_A_B df A B :
  rect df ->
  rows df = [A; A; B] -> A <> B ->
  all_missing A = false -> all_missing B = false ->
  remove_duplicates (remove_empty_rows df) = mkFrame (columns df) [A; B].
Proof.
  intros Hr Hrows Hab Ha Hb.
  assert (Hcols : columns df <> []).
  { intros Hc. unfold rect in Hr. rewrite Hrows in Hr.
    inversion Hr as [|? ? Hlen _]. unfold ncols in Hlen. rewrite Hc in Hlen.
    destruct A; [discriminate Ha | discriminate Hlen]. }
  rewrite remove_duplicates_eq.
  unfold remove_empty_rows. rewrite Hrows. simpl filter. rewrite Ha, Hb.
  simpl. rewrite empty_mkFrame.
  destruct (columns df) as [|c cols] eqn:Ec; [contradiction|].
  simpl. unfold kept_rows. simpl.
  rewrite row_mem_head. rewrite (row_mem_singleton Hab). reflexivity.
Qed.

Lemma count_exceeds_of_two c :
  (c < 2)%nat -> F64.count_exceeds c 2 F64.lit_0_7 = false.
Proof.
  intros H. destruct c as [|[|c]]; [| |lia]; vm_compute; reflexivity.
Qed.

Lemma enhance_without_instructions rt self run :
  exists run' err,
    enhance rt self run [] = Ended run' err /\ extends run run'.
Proof.
  unfold enhance.
  destruct (typed_cleaning rt self run) as [run1 [e|]] eqn:E.
  - exists run1, (Some e). split; [reflexivity|].
    apply (typed_cleaning_extends _ _ _ E).
  - exists run1, None. split; [reflexivity|].
    apply (typed_cleaning_extends _ _ _ E).
Qed.

(** No [Exception] leaves [clean_data]. *)
Lemma clean_data_no_exception rt self df user_instructions basic_only e :
  clean_data rt self df user_instructions basic_only <> Completes (Raised e).
Proof.
  unfold clean_data.
  destruct (detect_issues_returns rt df) as [issues Hi]. rewrite Hi.
  destruct (if llm_enabled self basic_only then _ else _); discriminate.
Qed.

(** With the enhancement stage off, or without an instruction, no snippet
    is executed: [clean_data] returns, and its report counts the rows of
    the frame it returns. *)
Lemma clean_data_returns rt self df user_instructions basic_only :
  llm_enabled self basic_only = false \/ user_instructions = [] ->
  exists r,
    clean_data rt self df user_instructions basic_only = Returned r /\
    rows_removed (report r)
    = (Z.of_nat (len df) - Z.of_nat (len (cleaned_data r)))%Z /\
    (llm_enabled self basic_only = false ->
     cleaned_data r = basic_cleaning rt df) /\
    len (cleaned_data r) = len (basic_cleaning rt df).
Proof.
  intros Hmode.
  destruct (llm_enabled self basic_only) eqn:Hen.
  - destruct Hmode as [Hm|Hm]; [discriminate Hm|]. subst user_instructions.
    destruct (enhance_without_instructions rt self (run0 rt df))
      as [run [err [Hrun [Hl _]]]].
    destruct (clean_data_enabled rt self df [] basic_only Hen Hrun)
      as [r [Hret [Hd [_ [_ [_ [_ [_ [_ [_ Hrem]]]]]]]]]].
    exists r. rewrite Hd. repeat split; try assumption; try discriminate.
  - destruct (clean_data_restricted rt self df user_instructions basic_only
                                    Hen)
      as [r [Hret [Hd [_ [_ Hrem]]]]].
    exists r. rewrite Hd. repeat split; try assumption; reflexivity.
Qed.

(** C6 (as the code has it).  On rows A, A, B, with A and B distinct and
    not empty, the row cleaners leave A, B.  [clean_data] then returns two
    rows and reports [rows_removed] 1 whenever the enhancement stage is
    off or no instruction is given.  With the stage off the two rows are A
    and B with every column either kept or coerced to numbers, and they
    are A and B themselves when no text column has both of its cells
    convert.  In no mode does [clean_data] raise an exception of class
    [Exception]. *)
Theorem duplicates_removed_keep_first (rt : Runtime) (self : CSVCleaner)
        (df : DataFrame) (A B : row) (user_instructions : pystr)
        (basic_only : bool) :
  wf_frame df ->
  rows df = [A; A; B] -> A <> B ->
  all_missing A = false -> all_missing B = false ->
  rows (remove_duplicates (remove_empty_rows df)) = [A; B] /\
  (forall e,
      clean_data rt self df user_instructions basic_only <> Raised e) /\
  (llm_enabled self basic_only = false \/ user_instructions = [] ->
   exists r,
     clean_data rt self df user_instructions basic_only = Returned r /\
     len (cleaned_data r) = 2%nat /\ rows_removed (report r) = 1%Z /\
     (llm_enabled self basic_only = false ->
      (forall j,
          column j (cleaned_data r) = [nth j A NaN; nth j B NaN] \/
          column j (cleaned_data r)
          = [to_numeric_cell rt (nth j A NaN);
             to_numeric_cell rt (nth j B NaN)]) /\
      ((forall j, dtype_at j df = Some DObject ->
          (count_notna (to_numeric rt [nth j A NaN; nth j B NaN]) < 2)%nat) ->
       rows (cleaned_data r) = [A; B]))).
Proof.
  intros [_ Hr] Hrows Hab Ha Hb.
  pose proof (row_cleaners_on_A_A_B Hr Hrows Hab Ha Hb) as Hkept.
  split; [rewrite Hkept; reflexivity|].
  split; [intros e; apply clean_data_no_exception|].
  intros Hmode.
  assert (Hr2 : rect (mkFrame (columns df) [A; B])).
  { apply (@rect_subset (columns df) (rows df)).
    - destruct df; exact Hr.
    - rewrite Hrows. simpl. tauto. }
  destruct (basic_type_conversion_spec rt Hr2) as [_ [Hl [_ [_ Hcols]]]].
  assert (Hbasic : basic_cleaning rt df
                   = basic_type_conversion rt (mkFrame (columns df) [A; B])).
  { unfold basic_cleaning. rewrite Hkept. reflexivity. }
  destruct (@clean_data_returns rt self df user_instructions basic_only Hmode)
    as [r [Hret [Hrem [Hoff Hno]]]].
  assert (Hlen : len (cleaned_data r) = 2%nat).
  { rewrite Hno, Hbasic, Hl. reflexivity. }
  exists r. split; [exact Hret|]. split; [exact Hlen|]. split.
  - rewrite Hrem, Hlen. unfold len. rewrite Hrows. reflexivity.
  - intros Hm. rewrite (Hoff Hm), Hbasic. split.
    + intros j. destruct (Hcols j) as [Hc _]. rewrite Hc.
      destruct (coerces rt _ j); [right | left]; reflexivity.
    + intros Hfew. unfold basic_type_conversion.
      rewrite convert_columns_id; [reflexivity|].
      intros j _. unfold coerces.
      destruct (dtype_at j (mkFrame (columns df) [A; B])) as [[| |]|] eqn:Ed;
        try reflexivity.
      apply count_exceeds_of_two. apply Hfew. exact Ed.
Qed.

Lemma duplicates_removed_keep_first_witness :
  exists r,
    clean_data Sample.plain_runtime (mkCleaner None) Sample.words [] true
    = Returned r /\
    rows (cleaned_data r) = [[Sample.str "a"]; [Sample.str "b"]] /\
    rows_removed (report r) = 1%Z.
Proof.
  destruct (@duplicates_removed_keep_first Sample.plain_runtime
              (mkCleaner None) Sample.words
              [Sample.str "a"] [Sample.str "b"] [] true
              sample_words_wf eq_refl)
    as [_ [_ H]].
  - discriminate.
  - reflexivity.
  - reflexivity.
  - destruct (H (or_introl eq_refl)) as [r [Hret [_ [Hcount Hsame]]]].
    exists r. split; [exact Hret|]. split.
    + apply (Hsame eq_refl).
      intros [|[|j]] _; vm_compute; repeat constructor.
    + exact Hcount.
Defined.

Lemma sample_twice_wf : wf_frame Sample.twice.
Proof.
  split.
  - unfold labels. simpl. repeat constructor; simpl; intuition.
  - repeat constructor.
Qed.

Lemma coerced_rows_are_not_A_B : ~ duplicates_leave_rows_A_B.
Proof.
  intros H.
  destruct (H Sample.plain_runtime (mkCleaner None) Sample.twice
              [Sample.str "1"] [Sample.str "2"] [] true
              sample_twice_wf eq_refl)
    as [r [Hret [Hrows _]]]; try reflexivity; try discriminate.
  destruct (clean_data_restricted Sample.plain_runtime (mkCleaner None)
              Sample.twice [] true eq_refl) as [r' [Hret' [Hdata _]]].
  rewrite Hret in Hret'. inversion Hret'; subst r'.
  rewrite Hdata in Hrows. vm_compute in Hrows. discriminate Hrows.
Qed.

(** ** The quality score *)

Example lit_0_4_nearest :
  Qabs (F64.to_Q F64.lit_0_4 - (4 # 10)) <= Qpower 2 (-55).
Proof. vm_compute. discriminate. Qed.

Example lit_0_3_nearest :
  Qabs (F64.to_Q F64.lit_0_3 - (3 # 10)) <= Qpower 2 (-55).
Proof. vm_compute. discriminate. Qed.

Example lit_0_2_nearest :
  Qabs (F64.to_Q F64.lit_0_2 - (2 # 10)) <= Qpower 2 (-56).
Proof. vm_compute. discriminate. Qed.

Example lit_0_1_nearest :
  Qabs (F64.to_Q F64.lit_0_1 - (1 # 10)) <= Qpower 2 (-57).
Proof. vm_compute. discriminate. Qed.

Example lit_0_5_exact : F64.to_Q F64.lit_0_5 == 1 # 2.
Proof. reflexivity. Qed.

(** *** Rounding in [SpecFloat]: what a right shift keeps *)

Local Open Scope Z_scope.















Local Close Scope Z_scope.

(** *** The rounded score *)









(** The arithmetic is the code's: on eight rows with one missing cell and
    one duplicate row the factors are 15/16, 7/8, 1 and 1, and the exact
    weighted sum is 0.9375; the sum of the four float products is below
    it, and the score is 93.7. *)
Example score_of_a_tie :
  F64.lt (F64.mul (weighted_sum Sample.plain_runtime Sample.tied)
                  (F64.of_Z 100))
         (F64.div (F64.of_Z 375) (F64.of_Z 4)) = true /\
  calculate_quality_score Sample.plain_runtime Sample.tied
  = PyFloat (F64.div (F64.of_Z 937) (F64.of_Z 10)).
Proof. split; vm_compute; reflexivity. Qed.

(** * Further properties of the engine *)

(** ** The row cleaners *)

(** X1.  [remove_duplicates] keeps the header and the rows of the table,
    and removes as many rows as [duplicated] marks, which is the number
    [detect_issues] reports.  On a table with a column each row is kept
    once; a table without columns is returned as it is, and none of its
    rows is marked. *)
Theorem remove_duplicates_keeps_each_row_once (df : DataFrame) :
  columns (remove_duplicates df) = columns df /\
  (forall r, In r (rows (remove_duplicates df)) <-> In r (rows df)) /\
  (len (remove_duplicates df) + count_true (duplicated df) = len df)%nat /\
  ((0 < ncols df)%nat -> NoDup (rows (remove_duplicates df))) /\
  (ncols df = 0%nat ->
   remove_duplicates df = df /\ duplicated df = []).
Proof.
  destruct (kept_rows_spec (rows df) []) as [Hnd [Hin _]].
  split; [apply remove_duplicates_columns|]. split; [|split; [|split]].
  - intros r. rewrite remove_duplicates_eq.
    destruct (empty df); [tauto|]. simpl. unfold kept_rows.
    rewrite Hin. simpl. tauto.
  - apply remove_duplicates_count.
  - intros Hc. rewrite remove_duplicates_eq. unfold empty.
    destruct (len df =? 0) eqn:El.
    + apply Nat.eqb_eq in El. unfold len in El.
      apply length_zero_iff_nil in El. simpl. rewrite El. constructor.
    + apply Nat.eqb_neq in El.
      destruct (ncols df =? 0) eqn:Ec; [apply Nat.eqb_eq in Ec; lia|].
      simpl. exact Hnd.
  - intros Hc. rewrite remove_duplicates_eq. unfold duplicated, empty.
    rewrite Hc. rewrite Bool.orb_true_r. split; reflexivity.
Qed.

(** ** The issue detector *)

Lemma nth_combine_seq A (l : list A) k j a :
  nth_error l j = Some a -> In ((k + j)%nat, a) (combine (seq k (length l)) l).
Proof.
  revert k j. induction l as [|x l IH]; intros k [|j] H; simpl in *;
    try discriminate.
  - inversion H; subst. left. rewrite Nat.add_0_r. reflexivity.
  - right. replace (k + S j)%nat with (S k + j)%nat by lia.
    apply IH. assumption.
Qed.

Lemma nth_enumerate A (l : list A) j a :
  nth_error l j = Some a <-> In (j, a) (enumerate l).
Proof.
  split; [|apply enumerate_nth].
  intros H. apply (nth_combine_seq l 0 j H).
Qed.

Lemma collect_In A B (f : A -> outcome (list B)) (l : list A) : forall r,
  collect f l = Returned r ->
  forall x, In x r <-> exists a ra, In a l /\ f a = Returned ra /\ In x ra.
Proof.
  induction l as [|a l IH]; intros r H x; simpl in H.
  - inversion H; subst. split; [intros [] | intros [a [ra [[] _]]]].
  - destruct (f a) as [here|e] eqn:Ea; simpl in H; [|discriminate].
    destruct (collect f l) as [rest|e] eqn:El; simpl in H; [|discriminate].
    inversion H; subst. rewrite in_app_iff. rewrite (IH rest eq_refl x).
    split.
    + intros [Hx|[b [rb [Hb [Hf Hx]]]]].
      * exists a, here. simpl. tauto.
      * exists b, rb. simpl. tauto.
    + intros [b [rb [[Hb|Hb] [Hf Hx]]]].
      * subst b. left. congruence.
      * right. exists b, rb. tauto.
Qed.

(** The missing percentage of a column, as the detector computes it. *)
Lemma check_missing_eq df j col d :
  check_missing df (j, (col, d)) =
  let p := F64.mul (F64.div (F64.of_nat (count_isna (column j df)))
                            (F64.of_nat (len df))) (F64.of_nat 100) in
  Returned (if F64.gtb p (F64.of_nat 50) then [HighMissing col p] else []).
Proof.
  unfold check_missing, np_true_divide. simpl.
  destruct (F64.gtb _ _); reflexivity.
Qed.

(** On tables of at most 100 rows the float test of the missing percentage
    is the integer one: more than half of the cells are missing. *)
Lemma half_missing_up_to_100 n nulls :
  (n <= 100)%nat -> (nulls <= n)%nat ->
  F64.gtb (F64.mul (F64.div (F64.of_nat nulls) (F64.of_nat n))
                   (F64.of_nat 100)) (F64.of_nat 50)
  = (n <? 2 * nulls).
Proof.
  intros Hn Hc.
  assert (Hall :
    forallb (fun n =>
      forallb (fun c =>
        Bool.eqb
          (F64.gtb (F64.mul (F64.div (F64.of_nat c) (F64.of_nat n))
                            (F64.of_nat 100)) (F64.of_nat 50))
          (n <? 2 * c))
        (seq 0 (S n))) (seq 0 101) = true) by (vm_compute; reflexivity).
  rewrite forallb_forall in Hall.
  specialize (Hall n). rewrite in_seq in Hall.
  assert (Hn' : (0 <= n < 0 + 101)%nat) by lia.
  specialize (Hall Hn'). rewrite forallb_forall in Hall.
  specialize (Hall nulls). rewrite in_seq in Hall.
  assert (Hc' : (0 <= nulls < 0 + S n)%nat) by lia.
  apply Bool.eqb_prop. exact (Hall Hc').
Qed.

Lemma count_isna_le j df : (count_isna (column j df) <= len df)%nat.
Proof.
  unfold count_isna. rewrite <- (column_length j df). apply filter_length_le.
Qed.

Lemma check_numeric_text_In rt df j col d x :
  In x (check_numeric_text rt df (j, (col, d))) <->
  x = NumericAsText col /\ d = DObject /\
  let sample_values := head 10 (dropna_series (column j df)) in
  (7 * length sample_values
   < 10 * count_notna (to_numeric rt sample_values))%nat.
Proof.
  unfold check_numeric_text. cbv zeta.
  set (sample_values := head 10 (dropna_series (column j df))).
  assert (Hlen : (length sample_values <= 10)%nat)
    by (unfold sample_values, head; apply firstn_le_length).
  assert (Hcount : (count_notna (to_numeric rt sample_values)
                    <= length sample_values)%nat).
  { unfold count_notna. etransitivity; [apply filter_length_le|].
    rewrite to_numeric_length. lia. }
  destruct d; simpl;
    try (split; [intros [] | intros [_ [Hd _]]; discriminate]).
  destruct (0 <? length sample_values) eqn:E0.
  - rewrite count_exceeds_below_90 by lia.
    destruct (7 * length sample_values
              <? 10 * count_notna (to_numeric rt sample_values)) eqn:E.
    + apply Nat.ltb_lt in E. simpl. split.
      * intros [Hx|[]]. subst. tauto.
      * intros [Hx _]. left. congruence.
    + apply Nat.ltb_ge in E. simpl. split; [intros [] | intros [_ [_ H]]; lia].
  - apply Nat.ltb_ge in E0. simpl.
    split; [intros [] | intros [_ [_ H]]; lia].
Qed.

(** X2.  What [detect_issues] reports, diagnostic by diagnostic: the count
    of empty rows when there is one; the count of rows [remove_duplicates]
    would remove when there is one; a column whose missing percentage,
    computed in floats, exceeds 50 -- up to 100 rows, a column with more
    than half of its cells missing; and a text column of which more than
    70% of the first ten non-missing values read as numbers. *)
Theorem detect_issues_reports (rt : Runtime) (df : DataFrame)
        (issues : list issue) :
  detect_issues rt df = Returned issues ->
  let percentage j :=
    F64.mul (F64.div (F64.of_nat (count_isna (column j df)))
                     (F64.of_nat (len df))) (F64.of_nat 100) in
  (forall n, In (EmptyRows n) issues <->
             n = length (filter all_missing (rows df)) /\ (0 < n)%nat) /\
  (forall n, In (DuplicateRows n) issues <->
             (n + len (remove_duplicates df) = len df)%nat /\ (0 < n)%nat) /\
  (forall col p, In (HighMissing col p) issues <->
     exists j d, nth_error (columns df) j = Some (col, d) /\
                 p = percentage j /\ F64.gtb p (F64.of_nat 50) = true) /\
  (forall col, In (NumericAsText col) issues <->
     exists j, nth_error (columns df) j = Some (col, DObject) /\
       let sample_values := head 10 (dropna_series (column j df)) in
       (7 * length sample_values
        < 10 * count_notna (to_numeric rt sample_values))%nat) /\
  ((len df <= 100)%nat ->
   forall j, F64.gtb (percentage j) (F64.of_nat 50)
             = (len df <? 2 * count_isna (column j df))).
Proof.
  intros H percentage. unfold detect_issues in H.
  destruct (collect (check_missing df) (enumerate (columns df)))
    as [issues3|e] eqn:E3; simpl in H; [|discriminate].
  inversion H; subst issues; clear H.
  pose proof (collect_In _ _ E3) as H3.
  pose proof (remove_duplicates_count df) as Hdup.
  assert (Hno3 : forall x, In x issues3 ->
            exists col p, x = HighMissing col p).
  { intros x Hx. apply H3 in Hx. destruct Hx as [[j [col d]] [ra [_ [Hf Hx]]]].
    rewrite check_missing_eq in Hf. cbv zeta in Hf. inversion Hf; subst ra.
    destruct (F64.gtb _ _); [|contradiction].
    destruct Hx as [Hx|[]]. eauto. }
  assert (Hno4 : forall x,
            In x (flat_map (check_numeric_text rt df)
                           (enumerate (columns df))) ->
            exists col, x = NumericAsText col).
  { intros x Hx. apply in_flat_map in Hx.
    destruct Hx as [[j [col d]] [_ Hx]].
    apply check_numeric_text_In in Hx. exists col. tauto. }
  split; [|split; [|split; [|split]]].
  - intros n. rewrite !in_app_iff. split.
    + intros [Hx|[Hx|[Hx|Hx]]].
      * destruct (0 <? _) eqn:E; [|contradiction].
        destruct Hx as [Hx|[]]. inversion Hx; subst.
        apply Nat.ltb_lt in E. tauto.
      * destruct (0 <? _); [|contradiction].
        destruct Hx as [Hx|[]]. discriminate.
      * destruct (Hno3 _ Hx) as [c [p Hc]]. discriminate.
      * destruct (Hno4 _ Hx) as [c Hc]. discriminate.
    + intros [-> Hpos]. left. apply Nat.ltb_lt in Hpos. rewrite Hpos.
      left. reflexivity.
  - intros n. rewrite !in_app_iff. split.
    + intros [Hx|[Hx|[Hx|Hx]]].
      * destruct (0 <? _); [|contradiction].
        destruct Hx as [Hx|[]]. discriminate.
      * destruct (0 <? _) eqn:E; [|contradiction].
        destruct Hx as [Hx|[]]. inversion Hx; subst.
        apply Nat.ltb_lt in E. split; [lia | exact E].
      * destruct (Hno3 _ Hx) as [c [p Hc]]. discriminate.
      * destruct (Hno4 _ Hx) as [c Hc]. discriminate.
    + intros [Hn Hpos]. right. left.
      assert (n = count_true (duplicated df)) by lia. subst n.
      apply Nat.ltb_lt in Hpos. rewrite Hpos. left. reflexivity.
  - intros col p. rewrite !in_app_iff. split.
    + intros [Hx|[Hx|[Hx|Hx]]].
      * destruct (0 <? _); [|contradiction].
        destruct Hx as [Hx|[]]. discriminate.
      * destruct (0 <? _); [|contradiction].
        destruct Hx as [Hx|[]]. discriminate.
      * apply H3 in Hx. destruct Hx as [[j [c d]] [ra [Hin [Hf Hx]]]].
        rewrite check_missing_eq in Hf. cbv zeta in Hf.
        inversion Hf; subst ra. fold (percentage j) in Hx.
        destruct (F64.gtb (percentage j) (F64.of_nat 50)) eqn:Eg;
          [|contradiction].
        destruct Hx as [Hx|[]]. inversion Hx; subst.
        exists j, d. apply nth_enumerate in Hin. tauto.
      * destruct (Hno4 _ Hx) as [c Hc]. discriminate.
    + intros [j [d [Hn [-> Hg]]]]. right. right. left.
      apply H3. exists (j, (col, d)), [HighMissing col (percentage j)].
      split; [apply nth_enumerate; exact Hn|]. split; [|left; reflexivity].
      rewrite check_missing_eq. cbv zeta. fold (percentage j).
      rewrite Hg. reflexivity.
  - intros col. rewrite !in_app_iff. split.
    + intros [Hx|[Hx|[Hx|Hx]]].
      * destruct (0 <? _); [|contradiction].
        destruct Hx as [Hx|[]]. discriminate.
      * destruct (0 <? _); [|contradiction].
        destruct Hx as [Hx|[]]. discriminate.
      * destruct (Hno3 _ Hx) as [c [p Hc]]. discriminate.
      * apply in_flat_map in Hx. destruct Hx as [[j [c d]] [Hin Hx]].
        apply check_numeric_text_In in Hx. destruct Hx as [Hc [-> Hs]].
        inversion Hc; subst c. exists j.
        apply nth_enumerate in Hin. tauto.
    + intros [j [Hn Hs]]. right. right. right.
      apply in_flat_map. exists (j, (col, DObject)).
      split; [apply nth_enumerate; exact Hn|].
      apply check_numeric_text_In. tauto.
  - intros Hlen j. unfold percentage.
    apply half_missing_up_to_100; [exact Hlen | apply count_isna_le].
Qed.

Lemma detect_issues_reports_witness :
  exists issues,
    detect_issues Sample.plain_runtime Sample.gaps = Returned issues /\
    In (NumericAsText (lit "n")) issues /\
    ~ In (NumericAsText (lit "tag")) issues.
Proof.
  destruct (detect_issues_returns Sample.plain_runtime Sample.gaps)
    as [issues H].
  exists issues. split; [exact H|].
  destruct (@detect_issues_reports Sample.plain_runtime Sample.gaps issues H)
    as [_ [_ [_ [Hn _]]]].
  split.
  - apply Hn. exists 0%nat. split; [reflexivity|]. vm_compute.
    repeat constructor.
  - intros Hin. apply Hn in Hin. destruct Hin as [[|[|j]] [Hj Hs]].
    + discriminate Hj.
    + vm_compute in Hs. lia.
    + destruct j; discriminate Hj.
Defined.

(** ** The deterministic cleaning as a whole *)

Lemma basic_cleaning_len rt df :
  rect df -> (len (basic_cleaning rt df) <= len df)%nat.
Proof.
  intros Hr. unfold basic_cleaning.
  assert (Hr2 : rect (remove_duplicates (remove_empty_rows df)))
    by (apply remove_duplicates_rect, remove_empty_rows_rect; assumption).
  destruct (basic_type_conversion_spec rt Hr2) as [_ [Hl _]].
  rewrite Hl.
  etransitivity; [apply remove_duplicates_len | apply remove_empty_rows_len].
Qed.

Lemma row_cleaners_dtype_at j df :
  dtype_at j (remove_duplicates (remove_empty_rows df)) = dtype_at j df.
Proof. unfold dtype_at. rewrite remove_duplicates_columns. reflexivity. Qed.

Lemma basic_cleaning_labels rt df :
  rect df -> labels (basic_cleaning rt df) = labels df.
Proof.
  intros Hr. unfold basic_cleaning.
  assert (Hr2 : rect (remove_duplicates (remove_empty_rows df)))
    by (apply remove_duplicates_rect, remove_empty_rows_rect; assumption).
  destruct (basic_type_conversion_spec rt Hr2) as [_ [_ [_ [Hlab _]]]].
  rewrite Hlab. unfold labels. rewrite remove_duplicates_columns.
  reflexivity.
Qed.

(** X3.  The deterministic cleaning keeps a well-formed table well-formed
    and keeps its header; it never adds a row; the only change of dtype is
    from text to numeric; and it changes no cell of a column that is not
    text: such a column holds what the two row cleaners left. *)
Theorem basic_cleaning_keeps_the_header (rt : Runtime) (df : DataFrame) :
  wf_frame df ->
  let out := basic_cleaning rt df in
  wf_frame out /\
  labels out = labels df /\
  (len out <= len df)%nat /\
  (forall j, dtype_at j out = dtype_at j df \/
             (dtype_at j df = Some DObject /\
              dtype_at j out = Some DNumeric)) /\
  (forall j, dtype_at j df <> Some DObject ->
             column j out
             = column j (remove_duplicates (remove_empty_rows df))).
Proof.
  intros [Hnd Hr] out.
  assert (Hr2 : rect (remove_duplicates (remove_empty_rows df)))
    by (apply remove_duplicates_rect, remove_empty_rows_rect; assumption).
  destruct (basic_type_conversion_spec rt Hr2)
    as [Hro [_ [_ [_ Hcols]]]].
  assert (Hlab : labels out = labels df)
    by (apply basic_cleaning_labels; assumption).
  split; [|split; [|split; [|split]]].
  - split; [rewrite Hlab; exact Hnd | exact Hro].
  - exact Hlab.
  - apply basic_cleaning_len. assumption.
  - intros j. destruct (Hcols j) as [_ Hd].
    unfold out, basic_cleaning. rewrite Hd.
    rewrite row_cleaners_dtype_at.
    destruct (coerces rt (remove_duplicates (remove_empty_rows df)) j) eqn:E;
      [|left; reflexivity].
    right. split; [|reflexivity].
    unfold coerces in E.
    rewrite row_cleaners_dtype_at in E.
    destruct (dtype_at j df) as [[| |]|]; try discriminate. reflexivity.
  - intros j Hd. destruct (Hcols j) as [Hc _].
    unfold out, basic_cleaning. rewrite Hc.
    replace (coerces rt (remove_duplicates (remove_empty_rows df)) j)
      with false; [reflexivity|].
    unfold coerces.
    rewrite row_cleaners_dtype_at.
    destruct (dtype_at j df) as [[| |]|]; try reflexivity. congruence.
Qed.

Lemma basic_cleaning_keeps_the_header_witness :
  labels (basic_cleaning Sample.plain_runtime Sample.mostly_numbers)
  = [lit "x"] /\
  dtype_at 0 (basic_cleaning Sample.plain_runtime Sample.mostly_numbers)
  = Some DNumeric.
Proof.
  destruct (@basic_cleaning_keeps_the_header Sample.plain_runtime
              Sample.mostly_numbers sample_mostly_numbers_wf)
    as [_ [Hlab [_ [Hd _]]]].
  split; [exact Hlab|].
  destruct (Hd 0%nat) as [H|[_ H]]; [|exact H].
  vm_compute in H. discriminate H.
Defined.

(** ** Restricted mode *)

(** X4.  With [basic_only] set, or without a service client, [clean_data]
    returns the deterministically cleaned table with the three basic report
    lines, no column analysis and no error, whatever the client and the
    instructions are: the service is never consulted. *)
Theorem restricted_mode_ignores_the_service (rt : Runtime) (df : DataFrame) :
  (forall self user_instructions,
      exists r,
        clean_data rt self df user_instructions true = Returned r /\
        cleaned_data r = basic_cleaning rt df /\
        operations_performed (report r) = basic_operations /\
        column_analysis (report r) = None /\
        llm_error (report r) = None) /\
  (forall self self' user_instructions user_instructions',
      clean_data rt self df user_instructions true
      = clean_data rt self' df user_instructions' true) /\
  (forall user_instructions basic_only,
      clean_data rt (mkCleaner None) df user_instructions basic_only
      = clean_data rt (mkCleaner None) df [] true).
Proof.
  split; [|split].
  - intros self ui. unfold clean_data.
    destruct (detect_issues_returns rt df) as [issues Hi]. rewrite Hi.
    cbn [bind]. unfold llm_enabled. cbn [negb andb].
    eexists. split; [reflexivity|]. cbn. repeat split.
  - intros self self' ui ui'. unfold clean_data, llm_enabled.
    reflexivity.
  - intros ui b. unfold clean_data, llm_enabled. cbn [groq_client].
    rewrite andb_false_r. reflexivity.
Qed.

(** ** Labels without a cleaner, and a service that is down *)

Lemma clean_typed_column_no_cleaner rt run col col_type :
  ~ In col_type cleaned_labels ->
  clean_typed_column rt run (col, col_type) = (run, None).
Proof.
  intros H. unfold clean_typed_column.
  repeat match goal with
         | |- context [pystr_eq_dec ?a ?b] =>
             destruct (pystr_eq_dec a b) as [->|]
         end;
    try reflexivity; exfalso; apply H; simpl; tauto.
Qed.

Lemma dispatch_no_cleaner rt items : forall run,
  (forall col col_type, In (col, col_type) items ->
                        ~ In col_type cleaned_labels) ->
  dispatch rt run items = (run, None).
Proof.
  induction items as [|[col col_type] items IH]; intros run H;
    cbn [dispatch].
  - reflexivity.
  - rewrite clean_typed_column_no_cleaner.
    + apply IH. intros c l Hin. apply (H c l). right; assumption.
    + apply (H col col_type). left; reflexivity.
Qed.

(** The classifier, by what holds of every label it can give. *)
Lemma analyze_labels rt (chat : client) df (Q : pystr -> pystr -> Prop) :
  (forall j col, nth_error (columns df) j = Some (col, DObject) ->
     head 3 (dropna_series (column j df)) <> [] ->
     Q col (label_for rt chat col (head 3 (dropna_series (column j df))))) ->
  exists types,
    analyze_columns_with_llm rt (mkCleaner (Some chat)) df = Returned types /\
    forall col col_type, In (col, col_type) types -> Q col col_type.
Proof.
  intros H. unfold analyze_columns_with_llm. cbn [groq_client].
  apply analyze_loop_labels.
  - intros j col d Hin Hd Hs. apply enumerate_nth in Hin.
    destruct d; try discriminate. apply H; assumption.
  - intros c l [].
Qed.

Lemma typed_cleaning_no_cleaner rt (chat : client) run :
  (forall col s, ~ In (label_for rt chat col s) cleaned_labels) ->
  exists types,
    typed_cleaning rt (mkCleaner (Some chat)) run
    = (mkRun (frame run) (operations run) (Some types), None) /\
    forall col col_type, In (col, col_type) types ->
                         ~ In col_type cleaned_labels.
Proof.
  intros H.
  destruct (@analyze_labels rt chat (frame run)
              (fun _ col_type => ~ In col_type cleaned_labels))
    as [types [Ha Hq]].
  { intros j col _ _. apply H. }
  exists types. split; [|exact Hq].
  unfold typed_cleaning. rewrite Ha. apply dispatch_no_cleaner. exact Hq.
Qed.

(** X5.  When every label the service gives is one without a cleaner
    (name, address, url, text, or a word outside the list), the column
    cleaners change nothing: with no instruction, [clean_data] returns the
    deterministically cleaned table, the three basic report lines and no
    error, and only the column analysis tells the run from a restricted
    one. *)
Theorem labels_without_cleaner_change_nothing (rt : Runtime) (chat : client)
        (df : DataFrame) :
  (forall col s, ~ In (label_for rt chat col s) cleaned_labels) ->
  exists r types,
    clean_data rt (mkCleaner (Some chat)) df [] false = Returned r /\
    cleaned_data r = basic_cleaning rt df /\
    operations_performed (report r) = basic_operations /\
    llm_error (report r) = None /\
    column_analysis (report r) = Some types /\
    forall col col_type, In (col, col_type) types ->
                         ~ In col_type cleaned_labels.
Proof.
  intros H.
  destruct (typed_cleaning_no_cleaner rt chat (run0 rt df) H)
    as [types [Ht Hq]].
  destruct (@clean_data_enabled rt (mkCleaner (Some chat)) df [] false
              (mkRun (basic_cleaning rt df) basic_operations (Some types))
              None) as [r Hr].
  - reflexivity.
  - unfold enhance. rewrite Ht. reflexivity.
  - exists r, types. cbn [frame operations analysis] in Hr.
    destruct Hr as [H1 [H2 [H3 [H4 [H5 _]]]]].
    repeat (split; [assumption|]). exact Hq.
Qed.

Lemma labels_without_cleaner_change_nothing_witness :
  exists r,
    clean_data Sample.plain_runtime (mkCleaner (Some Sample.importing_chat))
               Sample.people [] false = Returned r /\
    cleaned_data r = Sample.people /\
    operations_performed (report r) = basic_operations.
Proof.
  destruct (@labels_without_cleaner_change_nothing Sample.plain_runtime
              Sample.importing_chat Sample.people)
    as [r [types [Hr [Hd [Hops _]]]]].
  - intros col s. vm_compute. intuition discriminate.
  - exists r. split; [exact Hr|]. split; [|exact Hops].
    rewrite Hd. vm_compute. reflexivity.
Defined.

Lemma label_for_service_down rt (chat : client) col s :
  (forall req, exists e, chat req = Raised e) ->
  label_for rt chat col s = lit "text".
Proof.
  intros H. unfold label_for.
  destruct (H (AskColumnType col s)) as [e He]. rewrite He. reflexivity.
Qed.

Lemma text_has_no_cleaner : ~ In (lit "text") cleaned_labels.
Proof. vm_compute. intuition discriminate. Qed.

(** X6.  When every call to the service raises, [clean_data] still
    returns the deterministically cleaned table and reports no error:
    every classified column is labelled [text], no column cleaner runs,
    and an instruction, if one was given, changes nothing although its
    line is appended to the report. *)
Theorem service_down_degrades_to_basic_cleaning (rt : Runtime)
        (chat : client) (df : DataFrame) (user_instructions : pystr) :
  (forall req, exists e, chat req = Raised e) ->
  exists r types,
    clean_data rt (mkCleaner (Some chat)) df user_instructions false
    = Returned r /\
    cleaned_data r = basic_cleaning rt df /\
    llm_error (report r) = None /\
    column_analysis (report r) = Some types /\
    (forall col col_type, In (col, col_type) types -> col_type = lit "text") /\
    operations_performed (report r)
    = basic_operations ++
      match user_instructions with
      | [] => []
      | _ :: _ => [applied_line user_instructions]
      end.
Proof.
  intros Hdown.
  destruct (@analyze_labels rt chat (basic_cleaning rt df)
              (fun _ col_type => col_type = lit "text"))
    as [types [Ha Hq]].
  { intros j col _ _. apply label_for_service_down. exact Hdown. }
  assert (Ht : typed_cleaning rt (mkCleaner (Some chat)) (run0 rt df)
               = (mkRun (basic_cleaning rt df) basic_operations (Some types),
                  None)).
  { unfold typed_cleaning, run0. cbn [frame operations]. rewrite Ha.
    apply dispatch_no_cleaner. intros col col_type Hin.
    rewrite (Hq _ _ Hin). apply text_has_no_cleaner. }
  destruct (@clean_data_enabled rt (mkCleaner (Some chat)) df
              user_instructions false
              (mkRun (basic_cleaning rt df)
                     (basic_operations ++
                      match user_instructions with
                      | [] => []
                      | _ :: _ => [applied_line user_instructions]
                      end) (Some types))
              None) as [r Hr].
  - reflexivity.
  - unfold enhance. rewrite Ht. cbv iota beta.
    destruct user_instructions as [|c s].
    + cbn [instruction_step]. rewrite app_nil_r. reflexivity.
    + cbn [instruction_step frame operations analysis].
      unfold apply_user_instructions. cbn [groq_client].
      destruct (Hdown (AskCode (len (basic_cleaning rt df))
                         (labels (basic_cleaning rt df)) (c :: s)))
        as [e He].
      rewrite He. reflexivity.
  - exists r, types. cbn [frame operations analysis] in Hr.
    destruct Hr as [H1 [H2 [H3 [H4 [H5 _]]]]].
    split; [exact H1|]. split; [exact H2|]. split; [exact H5|].
    split; [exact H4|]. split; [exact Hq | exact H3].
Qed.

Lemma service_down_degrades_to_basic_cleaning_witness :
  exists r,
    clean_data Sample.plain_runtime
      (mkCleaner (Some (fun _ => Raised (lit "connection refused"))))
      Sample.twice (lit "drop x") false = Returned r /\
    llm_error (report r) = None /\
    operations_performed (report r)
    = basic_operations ++ [applied_line (lit "drop x")].
Proof.
  destruct (@service_down_degrades_to_basic_cleaning Sample.plain_runtime
              (fun _ => Raised (lit "connection refused"))
              Sample.twice (lit "drop x"))
    as [r [types [Hr [_ [He [_ [_ Hops]]]]]]].
  - intros req. eexists. reflexivity.
  - exists r. repeat split; assumption.
Defined.

(** ** Which columns are classified, and which the cleaners touch *)

Lemma dict_set_fresh k v d :
  ~ In k (map fst d) -> dict_set k v d = d ++ [(k, v)].
Proof.
  induction d as [|[k' v'] d IH]; intros H; simpl.
  - reflexivity.
  - destruct (pystr_eq_dec k k') as [->|Hne].
    + exfalso. apply H. left. reflexivity.
    + rewrite IH; [reflexivity|]. intros Hin. apply H. right. assumption.
Qed.

Lemma head_dropna_nil k s :
  (0 < k)%nat -> (head k (dropna_series s) = [] <-> existsb notna s = false).
Proof.
  intros Hk. unfold head, dropna_series.
  induction s as [|c s IH]; simpl.
  - destruct k; simpl; tauto.
  - destruct (notna c); simpl.
    + destruct k; [lia|]. simpl. split; discriminate.
    + exact IH.
Qed.

Lemma analyze_loop_keys rt chat df : forall cols acc,
  NoDup (map fst acc ++ map (fun jc => fst (snd jc)) cols) ->
  exists m,
    analyze_loop rt chat df cols acc = Returned m /\
    map fst m
    = map fst acc
      ++ map (fun jc => fst (snd jc)) (filter (classified df) cols).
Proof.
  induction cols as [|[j [col d]] cols IH]; intros acc Hnd;
    cbn [analyze_loop].
  - exists acc. simpl. rewrite app_nil_r. split; reflexivity.
  - simpl in Hnd.
    assert (Hrest : NoDup (map fst acc
                           ++ map (fun jc => fst (snd jc)) cols))
      by (apply NoDup_remove_1 in Hnd; exact Hnd).
    assert (Hfresh : ~ In col (map fst acc)).
    { apply NoDup_remove_2 in Hnd. intros Hin. apply Hnd.
      apply in_or_app. left. assumption. }
    unfold classified at 1. cbn [fst snd filter].
    destruct (is_object d) eqn:Hd; cbn [andb].
    + destruct (head 3 (dropna_series (column j df))) as [|c0 s0] eqn:Hs.
      * apply head_dropna_nil in Hs; [|lia]. rewrite Hs.
        apply IH. exact Hrest.
      * assert (He : existsb notna (column j df) = true).
        { destruct (existsb notna (column j df)) eqn:E; [reflexivity|].
          apply (@head_dropna_nil 3%nat) in E; [|lia]. congruence. }
        rewrite He. rewrite classify_column_label. cbn [bind].
        rewrite dict_set_fresh by exact Hfresh.
        destruct (IH (acc ++ [(col,
                     label_for rt chat col (c0 :: s0))])) as [m [Hm Hk]].
        { rewrite map_app. simpl. rewrite <- app_assoc. simpl. exact Hnd. }
        exists m. split; [exact Hm|].
        rewrite Hk, map_app. simpl. rewrite <- app_assoc. reflexivity.
    + apply IH. exact Hrest.
Qed.

Lemma enumerate_labels (cols : list (pystr * dtype)) :
  map (fun jc : nat * (pystr * dtype) => fst (snd jc)) (enumerate cols)
  = map fst cols.
Proof.
  unfold enumerate. generalize 0%nat as k.
  induction cols as [|c cols IH]; intros k; simpl; [reflexivity|].
  f_equal. apply IH.
Qed.

(** X7.  On a table with unique labels the classifier asks once about
    every text column that has a value, and about no other column: the
    keys of the dict it returns are the labels of those columns, in the
    order of the header.  Without a client the dict is empty. *)
Theorem classifier_asks_about_text_columns (rt : Runtime)
        (self : CSVCleaner) (df : DataFrame) :
  NoDup (labels df) ->
  exists types,
    analyze_columns_with_llm rt self df = Returned types /\
    map fst types
    = match groq_client self with
      | Some _ => classified_labels df
      | None => []
      end.
Proof.
  intros Hnd. unfold analyze_columns_with_llm.
  destruct (groq_client self) as [chat|].
  - destruct (analyze_loop_keys rt chat df (enumerate (columns df)) [])
      as [m [Hm Hk]].
    + simpl. rewrite enumerate_labels. exact Hnd.
    + exists m. split; [exact Hm | exact Hk].
  - exists []. split; reflexivity.
Qed.

Lemma classifier_asks_about_text_columns_witness :
  exists types,
    analyze_columns_with_llm Sample.plain_runtime
      (mkCleaner (Some Sample.email_chat)) Sample.gaps = Returned types /\
    map fst types = [lit "n"; lit "tag"].
Proof.
  destruct (@classifier_asks_about_text_columns Sample.plain_runtime
              (mkCleaner (Some Sample.email_chat)) Sample.gaps)
    as [types [H Hk]].
  - apply sample_gaps_wf.
  - exists types. split; [exact H | exact Hk].
Defined.

Lemma index_of_nth l ls j : index_of l ls = Some j -> nth_error ls j = Some l.
Proof.
  revert j. induction ls as [|h t IH]; intros j H; simpl in H.
  - discriminate.
  - destruct (pystr_eq_dec l h) as [->|Hne].
    + inversion H; subst. reflexivity.
    + destruct (index_of l t) as [i|]; simpl in H; [|discriminate].
      inversion H; subst. simpl. apply IH. reflexivity.
Qed.

Lemma clean_in_place_other run col cleaner dtype_of line run' err j :
  clean_in_place run col cleaner dtype_of line = (run', err) ->
  index_of col (labels (frame run)) <> Some j ->
  column j (frame run') = column j (frame run) /\
  dtype_at j (frame run') = dtype_at j (frame run).
Proof.
  unfold clean_in_place. intros H Hj.
  destruct (index_of col (labels (frame run))) as [k|].
  - destruct (cleaner (column k (frame run))) as [s|e].
    + inversion H; subst. simpl. apply set_column_other. congruence.
    + inversion H; subst. tauto.
  - inversion H; subst. tauto.
Qed.

Lemma clean_typed_column_other rt run col col_type run' err j :
  clean_typed_column rt run (col, col_type) = (run', err) ->
  index_of col (labels (frame run)) <> Some j ->
  column j (frame run') = column j (frame run) /\
  dtype_at j (frame run') = dtype_at j (frame run).
Proof.
  unfold clean_typed_column.
  repeat match goal with
         | |- context [pystr_eq_dec ?a ?b] => destruct (pystr_eq_dec a b)
         end;
    try apply clean_in_place_other.
  intros H _; inversion H; subst. tauto.
Qed.

Lemma dispatch_other rt items : forall run run' err j,
  dispatch rt run items = (run', err) ->
  (forall col col_type, In (col, col_type) items ->
     index_of col (labels (frame run)) <> Some j) ->
  column j (frame run') = column j (frame run) /\
  dtype_at j (frame run') = dtype_at j (frame run).
Proof.
  induction items as [|[col col_type] items IH]; intros run run' err j H Hj;
    cbn [dispatch] in H.
  - inversion H; subst. tauto.
  - destruct (clean_typed_column rt run (col, col_type))
      as [run1 [e|]] eqn:E.
    + inversion H; subst.
      apply (@clean_typed_column_other rt run col col_type run' (Some e) j E).
      apply (Hj col col_type). left; reflexivity.
    + destruct (@clean_typed_column_other rt run col col_type run1 None j E)
        as [Hc Hd].
      { apply (Hj col col_type). left; reflexivity. }
      destruct (clean_typed_column_extends _ _ _ E) as [_ [Hlab _]].
      destruct (@IH run1 run' err j H) as [Hc' Hd'].
      { intros c t Hin. rewrite Hlab. apply (Hj c t). right; assumption. }
      split; congruence.
Qed.

(** The keys of the classification are labels of text columns. *)
Lemma analyze_keys_are_text_columns rt self df types :
  analyze_columns_with_llm rt self df = Returned types ->
  forall col col_type, In (col, col_type) types ->
    exists j, nth_error (columns df) j = Some (col, DObject).
Proof.
  unfold analyze_columns_with_llm. intros H.
  destruct (groq_client self) as [chat|].
  - destruct (analyze_loop_labels rt chat df
                (fun col _ =>
                   exists j, nth_error (columns df) j = Some (col, DObject))
                (enumerate (columns df)) []) as [m [Hm Hq]].
    + intros j col d Hin Hd _. exists j. apply enumerate_nth in Hin.
      destruct d; try discriminate. exact Hin.
    + intros c l [].
    + rewrite Hm in H. inversion H; subst. exact Hq.
  - inversion H; subst. intros col col_type [].
Qed.

Lemma typed_cleaning_other rt self run run' err j :
  NoDup (labels (frame run)) ->
  typed_cleaning rt self run = (run', err) ->
  dtype_at j (frame run) <> Some DObject ->
  column j (frame run') = column j (frame run) /\
  dtype_at j (frame run') = dtype_at j (frame run).
Proof.
  intros Hnd H Hj. unfold typed_cleaning in H.
  destruct (analyze_columns_with_llm rt self (frame run)) as [types|e] eqn:Ea.
  - apply (@dispatch_other rt types _ run' err j H). cbn [frame].
    intros col col_type Hin Hidx.
    destruct (@analyze_keys_are_text_columns rt self (frame run) types Ea
                col col_type Hin) as [k Hk].
    apply index_of_nth in Hidx.
    assert (Hk' : nth_error (labels (frame run)) k = Some col).
    { unfold labels. rewrite nth_error_map, Hk. reflexivity. }
    assert (k = j).
    { rewrite NoDup_nth_error in Hnd. apply Hnd.
      - apply nth_error_Some. congruence.
      - congruence. }
    subst k. apply Hj. unfold dtype_at. rewrite Hk. reflexivity.
  - inversion H; subst. tauto.
Qed.

(** X8.  With no instruction given, whatever the service answers and
    whether or not a cleaner raises, [clean_data] returns a table with the
    header and the number of rows the deterministic cleaning left, and
    every column that is not text after that cleaning is returned cell for
    cell as the cleaning left it. *)
Theorem column_cleaners_touch_only_text_columns (rt : Runtime)
        (self : CSVCleaner) (df : DataFrame) (basic_only : bool) :
  wf_frame df ->
  exists r,
    clean_data rt self df [] basic_only = Returned r /\
    labels (cleaned_data r) = labels df /\
    len (cleaned_data r) = len (basic_cleaning rt df) /\
    (0 <= rows_removed (report r))%Z /\
    forall j, dtype_at j (basic_cleaning rt df) <> Some DObject ->
      column j (cleaned_data r) = column j (basic_cleaning rt df) /\
      dtype_at j (cleaned_data r) = dtype_at j (basic_cleaning rt df).
Proof.
  intros [Hnd Hr].
  pose proof (basic_cleaning_labels rt Hr) as Hlab.
  pose proof (basic_cleaning_len rt Hr) as Hlen.
  destruct (llm_enabled self basic_only) eqn:Hen.
  - destruct (enhance_without_instructions rt self (run0 rt df))
      as [run [err [Hrun [Hl [Hla _]]]]].
    destruct (clean_data_enabled rt self df [] basic_only Hen Hrun)
      as [r [Hret [Hd [_ [_ [_ [_ [_ [_ [_ Hrem]]]]]]]]]].
    cbn [run0 frame] in Hl, Hla.
    exists r. rewrite Hd, Hrem.
    split; [exact Hret|]. split; [congruence|]. split; [exact Hl|].
    split; [lia|].
    intros j Hj. unfold enhance in Hrun.
    destruct (typed_cleaning rt self (run0 rt df)) as [run1 [e|]] eqn:Et.
    + inversion Hrun; subst.
      apply (@typed_cleaning_other rt self (run0 rt df) run (Some e) j);
        [cbn [run0 frame]; rewrite Hlab; exact Hnd | exact Et | exact Hj].
    + cbn [instruction_step] in Hrun. inversion Hrun; subst.
      apply (@typed_cleaning_other rt self (run0 rt df) run None j);
        [cbn [run0 frame]; rewrite Hlab; exact Hnd | exact Et | exact Hj].
  - destruct (clean_data_restricted rt self df [] basic_only Hen)
      as [r [Hret [Hd [_ [_ Hrem]]]]].
    exists r. rewrite Hd, Hrem.
    split; [exact Hret|]. split; [exact Hlab|]. split; [reflexivity|].
    split; [lia|]. tauto.
Qed.

Lemma column_cleaners_touch_only_text_columns_witness :
  exists r,
    clean_data Sample.plain_runtime (mkCleaner (Some Sample.email_chat))
               Sample.mostly_numbers [] false = Returned r /\
    labels (cleaned_data r) = [lit "x"] /\
    dtype_at 0 (cleaned_data r) = Some DNumeric.
Proof.
  destruct (@column_cleaners_touch_only_text_columns Sample.plain_runtime
              (mkCleaner (Some Sample.email_chat)) Sample.mostly_numbers
              false sample_mostly_numbers_wf)
    as [r [Hr [Hlab [_ [_ Hcol]]]]].
  exists r. split; [exact Hr|]. split; [exact Hlab|].
  destruct (Hcol 0%nat) as [_ Hd].
  - vm_compute. discriminate.
  - rewrite Hd. vm_compute. reflexivity.
Defined.

(** ** The phone cleaner, twice *)

Lemma digits_only_all_digits nd s :
  Forall (fun c => is_digit nd c = true) (digits_only nd s).
Proof.
  unfold digits_only. apply Forall_forall. intros c Hc.
  apply filter_In in Hc. tauto.
Qed.

(** X9.  Cleaning a phone number a second time changes nothing: the
    brackets, the space and the dash of the layout are not digits, and a
    digit string is left as it is. *)
Theorem format_phone_idempotent (rt : Runtime) (v : cell) :
  format_phone rt (format_phone rt v) = format_phone rt v.
Proof.
  assert (Heq : forall w, isna w = false ->
            format_phone rt w =
            if length (digits_only (unicode_nd rt) (py_str rt w)) =? 10
            then Str (lit "(" ++ firstn 3 (digits_only (unicode_nd rt)
                                            (py_str rt w))
                      ++ lit ") "
                      ++ firstn 3 (skipn 3 (digits_only (unicode_nd rt)
                                              (py_str rt w)))
                      ++ lit "-"
                      ++ skipn 6 (digits_only (unicode_nd rt) (py_str rt w)))
            else Str (digits_only (unicode_nd rt) (py_str rt w))).
  { intros w Hw. unfold format_phone. rewrite Hw. reflexivity. }
  destruct (isna v) eqn:Hv.
  - unfold format_phone at 2. rewrite Hv.
    unfold format_phone. rewrite Hv. reflexivity.
  - rewrite (Heq v Hv).
    pose proof (digits_only_all_digits (unicode_nd rt) (py_str rt v)) as Hd.
    remember (digits_only (unicode_nd rt) (py_str rt v)) as digits
      eqn:Hdigits.
    clear Hdigits.
    destruct (length digits =? 10) eqn:E.
    + apply Nat.eqb_eq in E.
      destruct digits as [|a [|b [|c [|d [|e [|f [|g [|h [|i [|j [|k t]]]]]]]]]]];
        try discriminate E.
      repeat match goal with
             | H : Forall _ (_ :: _) |- _ => inversion H; clear H; subst
             end.
      rewrite Heq by reflexivity.
      cbn [py_str lit app firstn skipn N_of_ascii].
      unfold digits_only. cbn [filter].
      repeat match goal with
             | H : is_digit _ _ = true |- _ => rewrite H; clear H
             end.
      reflexivity.
    + rewrite Heq by reflexivity. cbn [py_str].
      rewrite (@digits_only_keeps _ _ Hd). rewrite E. reflexivity.
Qed.

(** ** The instruction interpreter *)



(** ** The email cleaner *)

Lemma str_result_has_no_value f s :
  existsb is_str s = false ->
  forallb isna
    (map (fun c => match c with Str x => Str (f x) | _ => NaN end) s) = true.
Proof.
  intros H. apply forallb_forall. intros c Hc.
  apply in_map_iff in Hc. destruct Hc as [c0 [Hg Hc0]]. subst c.
  destruct c0; try reflexivity.
  exfalso.
  assert (Hex : existsb is_str s = true)
    by (apply existsb_exists; exists (Str s0); tauto).
  congruence.
Qed.

Lemma str_result_has_string f s :
  existsb is_str s = true ->
  existsb is_str
    (map (fun c => match c with Str x => Str (f x) | _ => NaN end) s) = true.
Proof.
  intros H. apply existsb_exists in H. destruct H as [c [Hc Hs]].
  apply existsb_exists.
  destruct c; try discriminate.
  exists (Str (f s0)). split; [|reflexivity].
  apply in_map_iff. exists (Str s0). tauto.
Qed.

(** [clean_emails] returns exactly when the column holds a string or holds
    nothing. *)
Lemma clean_emails_eq rt s :
  clean_emails rt s
  = if forallb isna s || existsb is_str s
    then Returned (map (clean_email rt) s)
    else Raised (lit "Can only use .str accessor with string values!").
Proof.
  unfold clean_emails, str_method, str_accessor_ok, str_result_dtype.
  pose (g := fun (f : pystr -> pystr) (c : cell) =>
               match c with Str x => Str (f x) | _ => NaN end).
  assert (Hmap : map (g (py_strip rt)) (map (g (py_lower rt)) s)
                 = map (clean_email rt) s).
  { rewrite map_map. apply map_ext. intros [| | |]; reflexivity. }
  change (fun c : cell => match c with Str x => Str (py_lower rt x) | _ => NaN end)
    with (g (py_lower rt)).
  change (fun c : cell => match c with Str x => Str (py_strip rt x) | _ => NaN end)
    with (g (py_strip rt)).
  cbn [is_object andb].
  destruct (forallb isna s) eqn:En; cbn [orb].
  - cbn [bind fst snd is_object andb].
    assert (Hall : forallb isna (map (g (py_lower rt)) s) = true).
    { apply forallb_forall. intros c Hc. apply in_map_iff in Hc.
      destruct Hc as [c0 [Hg Hc0]]. subst c.
      rewrite forallb_forall in En. specialize (En c0 Hc0).
      destruct c0; try discriminate. reflexivity. }
    rewrite Hall. cbn [orb bind snd].
    rewrite Hmap. reflexivity.
  - destruct (existsb is_str s) eqn:Es; cbn [orb].
    + cbn [bind fst snd is_object andb].
      rewrite (str_result_has_string (py_lower rt) s Es : existsb is_str (map (g (py_lower rt)) s) = true).
      rewrite orb_true_r. cbn [orb bind snd].
      rewrite Hmap. reflexivity.
    + destruct (existsb is_num s && existsb is_time s); reflexivity.
Qed.

Lemma lstrip_clean sp s :
  match lstrip sp s with
  | [] => True
  | c :: _ => is_space sp c = false
  end.
Proof.
  induction s as [|c s IH]; simpl; [exact I|].
  destruct (is_space sp c) eqn:E; [exact IH | exact E].
Qed.

Lemma lstrip_of_clean sp s :
  match s with [] => True | c :: _ => is_space sp c = false end ->
  lstrip sp s = s.
Proof.
  destruct s as [|c s]; simpl; [reflexivity|]. intros H. rewrite H.
  reflexivity.
Qed.

Lemma lstrip_idempotent sp s : lstrip sp (lstrip sp s) = lstrip sp s.
Proof. apply lstrip_of_clean, lstrip_clean. Qed.

Lemma lstrip_snoc sp s c :
  is_space sp c = false -> lstrip sp (s ++ [c]) = lstrip sp s ++ [c].
Proof.
  intros H. induction s as [|a s IH]; simpl.
  - rewrite H. reflexivity.
  - destruct (is_space sp a); [exact IH | reflexivity].
Qed.

Lemma strip_idempotent sp s : strip sp (strip sp s) = strip sp s.
Proof.
  unfold strip.
  assert (Hl : lstrip sp (rstrip sp (lstrip sp s)) = rstrip sp (lstrip sp s)).
  { apply lstrip_of_clean. pose proof (lstrip_clean sp s) as Hc.
    destruct (lstrip sp s) as [|c t]; [exact I|].
    unfold rstrip. simpl. rewrite lstrip_snoc by exact Hc.
    rewrite rev_app_distr. simpl. exact Hc. }
  rewrite Hl. unfold rstrip. rewrite rev_involutive, lstrip_idempotent.
  reflexivity.
Qed.

Lemma lstrip_incl sp s c : In c (lstrip sp s) -> In c s.
Proof.
  induction s as [|a s IH]; simpl; [tauto|].
  destruct (is_space sp a); [intros H; right; apply IH; exact H | tauto].
Qed.

Lemma strip_incl sp s c : In c (strip sp s) -> In c s.
Proof.
  unfold strip, rstrip. intros H. apply in_rev in H.
  apply lstrip_incl in H. apply in_rev in H. apply lstrip_incl in H.
  exact H.
Qed.

Lemma ascii_lower_idempotent c : ascii_lower (ascii_lower c) = ascii_lower c.
Proof.
  unfold ascii_lower.
  destruct ((65 <=? c)%N && (c <=? 90)%N) eqn:E; [|rewrite E; reflexivity].
  apply andb_true_iff in E. destruct E as [E1 E2].
  apply N.leb_le in E1, E2.
  replace ((65 <=? c + 32)%N && (c + 32 <=? 90)%N) with false; [reflexivity|].
  symmetry. apply andb_false_iff. right. apply N.leb_gt. lia.
Qed.

Lemma ascii_lower_ascii c : is_ascii c = true -> is_ascii (ascii_lower c) = true.
Proof.
  unfold is_ascii, ascii_lower. intros H. apply N.ltb_lt in H.
  destruct ((65 <=? c)%N && (c <=? 90)%N) eqn:E.
  - apply andb_true_iff in E. destruct E as [_ E2]. apply N.leb_le in E2.
    apply N.ltb_lt. lia.
  - apply N.ltb_lt. exact H.
Qed.

(** X12.  [clean_emails] returns, for a column of strings and missing
    values, the strings lower-cased and stripped and the missing values in
    place; whenever it returns, that is what it returns, a cell that is not
    a string turned missing; it raises when the column holds a value and
    no string; and on ASCII strings cleaning a second time changes
    nothing. *)
Theorem clean_emails_lowers_and_strips (rt : Runtime) (s : series) :
  (forall out, clean_emails rt s = Returned out ->
               out = map (clean_email rt) s) /\
  ((forall c, In c s -> is_str c = true \/ isna c = true) ->
   clean_emails rt s = Returned (map (clean_email rt) s)) /\
  (existsb notna s = true -> existsb is_str s = false ->
   exists e, clean_emails rt s = Raised e) /\
  (forall x, forallb is_ascii x = true ->
             clean_email rt (clean_email rt (Str x))
             = clean_email rt (Str x)).
Proof.
  split; [|split; [|split]].
  - intros out H. rewrite clean_emails_eq in H.
    destruct (forallb isna s || existsb is_str s); [|discriminate H].
    inversion H. reflexivity.
  - intros Hs. rewrite clean_emails_eq.
    destruct (existsb is_str s) eqn:E; [rewrite orb_true_r; reflexivity|].
    replace (forallb isna s) with true; [reflexivity|].
    symmetry. apply forallb_forall. intros c Hc.
    destruct (Hs c Hc) as [H|H]; [|exact H].
    exfalso.
    assert (Hex : existsb is_str s = true)
      by (apply existsb_exists; exists c; tauto).
    congruence.
  - intros Hv Hn. rewrite clean_emails_eq. rewrite Hn.
    replace (forallb isna s) with false; [eexists; reflexivity|].
    symmetry. apply existsb_exists in Hv. destruct Hv as [c [Hc Hna]].
    destruct (forallb isna s) eqn:E; [|reflexivity].
    rewrite forallb_forall in E. specialize (E c Hc).
    unfold notna in Hna. rewrite E in Hna. discriminate Hna.
  - intros x Hx. cbn [clean_email]. f_equal.
    assert (Hlow : py_lower rt x = map ascii_lower x)
      by (unfold py_lower, lower; rewrite Hx; reflexivity).
    set (z := py_strip rt (py_lower rt x)).
    assert (Hz : forall c, In c z -> is_ascii c = true /\ ascii_lower c = c).
    { intros c Hc. unfold z, py_strip in Hc. apply strip_incl in Hc.
      rewrite Hlow in Hc. apply in_map_iff in Hc.
      destruct Hc as [c0 [Hc0 Hin]]. subst c.
      rewrite forallb_forall in Hx. split.
      - apply ascii_lower_ascii. apply Hx. exact Hin.
      - apply ascii_lower_idempotent. }
    assert (Hzl : py_lower rt z = z).
    { unfold py_lower, lower.
      replace (forallb is_ascii z) with true.
      - rewrite <- (map_id z) at 2. apply map_ext_in.
        intros c Hc. apply Hz. exact Hc.
      - symmetry. apply forallb_forall. intros c Hc. apply Hz. exact Hc. }
    rewrite Hzl. unfold z, py_strip. apply strip_idempotent.
Qed.

Lemma clean_emails_lowers_and_strips_witness :
  clean_emails Sample.plain_runtime [Sample.str " Ann@Example.COM "; NaN]
  = Returned [Sample.str "ann@example.com"; NaN].
Proof.
  destruct (clean_emails_lowers_and_strips Sample.plain_runtime
              [Sample.str " Ann@Example.COM "; NaN]) as [_ [H _]].
  rewrite H; [reflexivity|].
  intros c [Hc|[Hc|[]]]; subst c; [left | right]; reflexivity.
Defined.

